(** * ChartMuseum component: a shallow embedding of the resource composition

    The repository declares one Pulumi component, [ChartMuseum], whose
    constructor registers a small graph of resources.  Two versions of the
    component are embedded here: [Index] follows [src/index.ts] and
    [Part000] follows [src/unnamed/part_000].

    JavaScript values are modelled dynamically (the TypeScript interface is
    erased at run time); resource registration is a state-and-error monad
    over the registration log of the engine. *)

From Stdlib Require Import String Ascii List ZArith Bool Lia Relations.
From Stdlib Require Import DecimalString.
Import ListNotations.
Local Open Scope string_scope.
Set Warnings "-register-all".

(** ** JavaScript data *)

Module Js.

(** Plain JavaScript data, as the user arguments and the defaults hold it.
    An object is its list of own properties in insertion order. *)
Inductive JsValue : Type :=
| JUndefined
| JNull
| JBool (b : bool)
| JNum (z : Z)
| JStr (s : string)
| JArr (items : list JsValue)
| JObj (props : list (string * JsValue)).

Definition JsObject : Type := list (string * JsValue).

Inductive Error : Type :=
| RunError (message : string)
| TypeError
| ResourceError.

(** [o[k]] on the own properties of an object; [undefined] when absent. *)
Fixpoint obj_get (k : string) (o : JsObject) : JsValue :=
  match o with
  | [] => JUndefined
  | (k', v) :: rest => if String.eqb k k' then v else obj_get k rest
  end.

(** [k in o], for own properties. *)
Fixpoint obj_has (k : string) (o : JsObject) : bool :=
  match o with
  | [] => false
  | (k', _) :: rest => if String.eqb k k' then true else obj_has k rest
  end.

(** [o[k] = v]: an existing property keeps its place, a new one is added
    last.  This is JavaScript's order for keys that are not array indices;
    JavaScript lists array-index keys (["0"], ["7"], ...) first, in numeric
    order, so the order of objects holding such keys is outside this
    model. *)
Fixpoint obj_set (k : string) (v : JsValue) (o : JsObject) : JsObject :=
  match o with
  | [] => [(k, v)]
  | (k', v') :: rest =>
      if String.eqb k k' then (k', v) :: rest else (k', v') :: obj_set k v rest
  end.

(** The own property keys of an object, each once, in order. *)
Fixpoint own_keys (o : JsObject) : list string :=
  match o with
  | [] => []
  | (k, _) :: rest =>
      k :: filter (fun k' => negb (String.eqb k' k)) (own_keys rest)
  end.

(** One spread element [...source] of an object literal: every own key of
    the source is read from it and written to the object being built.  A
    property whose value is [undefined] is copied like any other. *)
Definition spread_into (target : JsObject) (source : JsObject) : JsObject :=
  fold_left (fun t k => obj_set k (obj_get k source) t) (own_keys source) target.

(** Spreading an optional argument: [...undefined] adds nothing. *)
Definition spread_opt (target : JsObject) (source : option JsObject) : JsObject :=
  match source with
  | None => target
  | Some s => spread_into target s
  end.

(** [ToBoolean]. *)
Definition to_boolean (v : JsValue) : bool :=
  match v with
  | JUndefined | JNull => false
  | JBool b => b
  | JNum z => negb (Z.eqb z 0)
  | JStr s => negb (String.eqb s EmptyString)
  | JArr _ | JObj _ => true
  end.

(** [!v]. *)
Definition js_not (v : JsValue) : bool := negb (to_boolean v).

(** [String(b)] for a boolean. *)
Definition String_of_bool (b : bool) : string :=
  if b then "true" else "false".

(** [v.k] for the property names the constructors read ([type], [cloud],
    [region]); no prototype of a primitive, an array or a plain object
    carries one of them, so only own properties of objects answer. *)
Definition member (v : JsValue) (k : string) : Error + JsValue :=
  match v with
  | JUndefined | JNull => inl TypeError
  | JObj o => inr (obj_get k o)
  | _ => inr JUndefined
  end.

(** [v?.k]. *)
Definition opt_member (v : JsValue) (k : string) : JsValue :=
  match v with
  | JUndefined | JNull => JUndefined
  | JObj o => obj_get k o
  | _ => JUndefined
  end.

Definition upper_ascii (c : ascii) : ascii :=
  let n := nat_of_ascii c in
  if andb (Nat.leb 97 n) (Nat.leb n 122) then ascii_of_nat (n - 32) else c.

(** [String.prototype.toUpperCase], exact on ASCII strings: the letters
    a-z are mapped, every other byte is kept.  Outside ASCII the method
    follows the Unicode case mapping, which this function does not. *)
Fixpoint toUpperCase (s : string) : string :=
  match s with
  | EmptyString => EmptyString
  | String c rest => String (upper_ascii c) (toUpperCase rest)
  end.

(** [v.toUpperCase()]: only a string has the method. *)
Definition call_toUpperCase (v : JsValue) : Error + string :=
  match v with
  | JStr s => inr (toUpperCase s)
  | _ => inl TypeError
  end.

(** *** JSON.stringify *)

Definition hex_digit (n : nat) : ascii :=
  if Nat.ltb n 10 then ascii_of_nat (48 + n) else ascii_of_nat (87 + n).

Definition json_escape_char (c : ascii) : string :=
  let n := nat_of_ascii c in
  if Nat.eqb n 34 then String "\"%char (String (ascii_of_nat 34) EmptyString)
  else if Nat.eqb n 92 then "\\"
  else if Nat.eqb n 8 then "\b"
  else if Nat.eqb n 12 then "\f"
  else if Nat.eqb n 10 then "\n"
  else if Nat.eqb n 13 then "\r"
  else if Nat.eqb n 9 then "\t"
  else if Nat.ltb n 32 then
    "\u00" ++ String (hex_digit (n / 16)) (String (hex_digit (n mod 16)) EmptyString)
  else String c EmptyString.

Fixpoint json_escape (s : string) : string :=
  match s with
  | EmptyString => EmptyString
  | String c rest => json_escape_char c ++ json_escape rest
  end.

Definition json_quote (s : string) : string :=
  String (ascii_of_nat 34) (json_escape s ++ String (ascii_of_nat 34) EmptyString).

Definition string_of_Z (z : Z) : string :=
  NilEmpty.string_of_int (Z.to_int z).

(** The text of a value that is not [undefined]; inside an array
    [undefined] prints as [null], inside an object its property is left
    out. *)
Fixpoint json_text (v : JsValue) : string :=
  match v with
  | JUndefined | JNull => "null"
  | JBool b => String_of_bool b
  | JNum z => string_of_Z z
  | JStr s => json_quote s
  | JArr items => "[" ++ String.concat "," (map json_text items) ++ "]"
  | JObj props =>
      "{" ++ String.concat ","
               (flat_map (fun kv =>
                            match kv with
                            | (k, JUndefined) => []
                            | (k, v') => [json_quote k ++ ":" ++ json_text v']
                            end) props) ++ "}"
  end.

Definition JSON_stringify (v : JsValue) : JsValue :=
  match v with
  | JUndefined => JUndefined
  | _ => JStr (json_text v)
  end.

(** *** Buffer.from(s).toString("base64") *)

Definition base64_alphabet : string :=
  "ABCDEFGHIJKLMNOPQRSTUVWXYZabcdefghijklmnopqrstuvwxyz0123456789+/".

Definition base64_digit (n : nat) : ascii :=
  match String.get n base64_alphabet with
  | Some c => c
  | None => "="%char
  end.

Fixpoint base64_bytes (fuel : nat) (bs : list nat) : string :=
  match fuel with
  | O => EmptyString
  | S fuel' =>
      match bs with
      | [] => EmptyString
      | [a] =>
          String (base64_digit (a / 4))
            (String (base64_digit ((a mod 4) * 16)) "==")
      | [a; b] =>
          String (base64_digit (a / 4))
            (String (base64_digit ((a mod 4) * 16 + b / 16))
               (String (base64_digit ((b mod 16) * 4)) "="))
      | a :: b :: c :: rest =>
          String (base64_digit (a / 4))
            (String (base64_digit ((a mod 4) * 16 + b / 16))
               (String (base64_digit ((b mod 16) * 4 + c / 64))
                  (String (base64_digit (c mod 64))
                     (base64_bytes fuel' rest))))
      end
  end.

Definition to_base64 (s : string) : string :=
  let bs := map nat_of_ascii (list_ascii_of_string s) in
  base64_bytes (S (List.length bs)) bs.

End Js.

(** ** The resource engine, as the constructors see it *)

Module Pulumi.
Import Js.

(** The resource classes the component instantiates. *)
Inductive ResourceClass : Type :=
| Component (type_token : string)
| K8sNamespace
| K8sSecret
| K8sDeployment
| K8sService
| S3Bucket
| IamUser
| IamUserPolicy
| IamAccessKey.

(** A resource object is identified by its class and its logical name. *)
Record Ref : Type := mkRef { ref_class : ResourceClass; ref_name : string }.

Definition class_eqb (a b : ResourceClass) : bool :=
  match a, b with
  | Component s, Component t => String.eqb s t
  | K8sNamespace, K8sNamespace
  | K8sSecret, K8sSecret
  | K8sDeployment, K8sDeployment
  | K8sService, K8sService
  | S3Bucket, S3Bucket
  | IamUser, IamUser
  | IamUserPolicy, IamUserPolicy
  | IamAccessKey, IamAccessKey => true
  | _, _ => false
  end.

Definition ref_eqb (a b : Ref) : bool :=
  andb (class_eqb (ref_class a) (ref_class b))
       (String.eqb (ref_name a) (ref_name b)).

(** An output property of a resource ([bucket.bucket],
    [namespace.metadata.name]): a value the engine resolves later. *)
Record OutputRef : Type :=
  mkOut { out_resource : Ref; out_path : list string }.

(** The argument tree handed to a resource: object and array literals,
    plain values, outputs, and outputs under [.apply(f)]. *)
Inductive Input : Type :=
| ILit (v : JsValue)
| IOut (o : OutputRef)
| IApply (o : OutputRef) (f : string -> JsValue)
| IArr (items : list Input)
| IObj (props : list (string * Input)).

Fixpoint field (k : string) (props : list (string * Input)) : Input :=
  match props with
  | [] => ILit JUndefined
  | (k', v) :: rest => if String.eqb k k' then v else field k rest
  end.

(** Reading an argument tree along a path of property names. *)
Fixpoint at_path (path : list string) (i : Input) : Input :=
  match path with
  | [] => i
  | k :: rest =>
      match i with
      | IObj props => at_path rest (field k props)
      | _ => ILit JUndefined
      end
  end.

Definition items_of (i : Input) : list Input :=
  match i with
  | IArr items => items
  | _ => []
  end.

Record ResourceOptions : Type :=
  mkOpts { parent : option Ref; dependsOn : list Ref }.

Definition no_opts : ResourceOptions := mkOpts None [].

Record Resource : Type :=
  mkResource { urn : Ref; args : Input; opts : ResourceOptions }.

(** The registration log: what has been declared, in order. *)
Definition Engine : Type := list Resource.

(** Computations that register resources and may throw.  What was
    registered before a throw stays registered. *)
Definition M (A : Type) : Type := Engine -> Engine * (Error + A).

Definition ret {A} (a : A) : M A := fun st => (st, inr a).

Definition bind {A B} (m : M A) (k : A -> M B) : M B :=
  fun st =>
    match m st with
    | (st', inl e) => (st', inl e)
    | (st', inr a) => k a st'
    end.

Definition throw {A} (e : Error) : M A := fun st => (st, inl e).

Definition lift {A} (r : Error + A) : M A := fun st => (st, r).

(** [new C(name, args, opts)].  The resource constructor of the SDK throws
    a [ResourceError] when the name is empty, before anything is
    registered. *)
Definition new_resource (c : ResourceClass) (name : string) (a : Input)
           (o : ResourceOptions) : M Ref :=
  fun st =>
    match name with
    | EmptyString => (st, inl ResourceError)
    | String _ _ =>
        ((st ++ [mkResource (mkRef c name) a o])%list, inr (mkRef c name))
    end.

Notation "x <- m ;; k" := (bind m (fun x => k))
  (at level 61, m at next level, right associativity).

(** The resources a run added to the log it started from. *)
Definition declared (before after : Engine) : list Resource :=
  skipn (List.length before) after.

Definition find_resource (r : Ref) (g : list Resource) : option Resource :=
  find (fun x => ref_eqb (urn x) r) g.

Definition classes (g : list Resource) : list ResourceClass :=
  map (fun x => ref_class (urn x)) g.

Definition is_storage_or_credential (c : ResourceClass) : bool :=
  match c with
  | S3Bucket | IamUser | IamUserPolicy | IamAccessKey | K8sSecret => true
  | _ => false
  end.

End Pulumi.

(** ** src/index.ts *)

Module Index.
Import Js Pulumi.

Definition ChartMuseumDefaults : JsObject :=
  [ ("namespace", JStr "chartmuseum");
    ("replicas", JNum 1);
    ("service", JObj [("type", JStr "ClusterIP")]);
    ("api", JBool false);
    ("metrics", JBool false) ].

(** The fields of the component object once the constructor has run. *)
Record ChartMuseumObj : Type := mkChartMuseum {
  this : Ref;
  deployment : Ref;
  namespace : Ref;
  service : Ref;
  secret : Ref;
  bucket : Ref;
  cloudProvider : string;
  cloudProviderRegion : string;
  name_ : string;
  args_ : JsObject;
  api : string;
  metrics : string
}.

(** [{...ChartMuseumDefaults, ...args}] *)
Definition resolve_args (user : option JsObject) : JsObject :=
  spread_opt (spread_into [] ChartMuseumDefaults) user.

Definition labels_of (name : string) : JsValue :=
  JObj [("app", JStr "chartmuseum"); ("release", JStr name)].

(** The object [JSON.stringify] receives inside the policy callback. *)
Definition policy_document (bucketName : string) : JsValue :=
  JObj [ ("Version", JStr "2012-10-17");
         ("Statement", JArr [
            JObj [ ("Sid", JStr "AllowListObjects");
                   ("Effect", JStr "Allow");
                   ("Action", JArr [JStr "s3:ListBucket"]);
                   ("Resource", JStr ("arn:aws:s3:::" ++ bucketName)) ];
            JObj [ ("Sid", JStr "AllowObjectsCRUD");
                   ("Effect", JStr "Allow");
                   ("Action", JArr [ JStr "s3:DeleteObject";
                                     JStr "s3:GetObject";
                                     JStr "s3:PutObject" ]);
                   ("Resource", JStr ("arn:aws:s3:::" ++ bucketName ++ "/*")) ]
          ]) ].

Definition policy_callback (bucketName : string) : JsValue :=
  JSON_stringify (policy_document bucketName).

Definition base64_callback (k : string) : JsValue := JStr (to_base64 k).

Definition env_value (n : string) (v : Input) : Input :=
  IObj [("name", ILit (JStr n)); ("value", v)].

Definition env_secret (n : string) (secretName : Input) (key : string) : Input :=
  IObj [ ("name", ILit (JStr n));
         ("valueFrom",
          IObj [("secretKeyRef",
                 IObj [("name", secretName); ("key", ILit (JStr key))])]) ].

Definition container_env (api metrics cloudProvider cloudProviderRegion : string)
           (bucket secret : Ref) : list Input :=
  [ env_value "DISABLE_API" (ILit (JStr api));
    env_value "DISABLE_METRICS" (ILit (JStr metrics));
    env_value "LOG_JSON" (ILit (JStr "true"));
    env_value "PROV_POST_FORM_FIELD_NAME" (ILit (JStr "prov"));
    env_value "STORAGE" (ILit (JStr cloudProvider));
    env_value ("STORAGE_" ++ toUpperCase cloudProvider ++ "_REGION")
              (ILit (JStr cloudProviderRegion));
    env_value ("STORAGE_" ++ toUpperCase cloudProvider ++ "_BUCKET")
              (IOut (mkOut bucket ["bucket"]));
    env_secret "AWS_ACCESS_KEY_ID"
               (IOut (mkOut secret ["metadata"; "name"])) "AWS_ACCESS_KEY_ID";
    env_secret "AWS_SECRET_ACCESS_KEY"
               (IOut (mkOut secret ["metadata"; "name"])) "AWS_SECRET_ACCESS_KEY" ].

Definition health_probe : Input :=
  IObj [ ("httpGet", IObj [ ("path", ILit (JStr "/health"));
                            ("port", ILit (JStr "http")) ]);
         ("failureThreshold", ILit (JNum 3));
         ("initialDelaySeconds", ILit (JNum 5));
         ("periodSeconds", ILit (JNum 10));
         ("successThreshold", ILit (JNum 1));
         ("timeoutSeconds", ILit (JNum 1)) ].

Definition deployment_args (name : string) (labels : JsValue) (a : JsObject)
           (ns : Ref) (env : list Input) : Input :=
  IObj [
    ("metadata", IObj [ ("namespace", IOut (mkOut ns ["metadata"; "name"]));
                        ("labels", ILit labels) ]);
    ("spec", IObj [
       ("selector", IObj [("matchLabels", ILit labels)]);
       ("replicas", ILit (obj_get "replicas" a));
       ("strategy", IObj [
          ("rollingUpdate", IObj [("maxUnavailable", ILit (JNum 0))]);
          ("type", ILit (JStr "RollingUpdate")) ]);
       ("template", IObj [
          ("metadata", IObj [ ("name", ILit (JStr name));
                              ("labels", ILit labels) ]);
          ("spec", IObj [
             ("securityContext", IObj [("fsGroup", ILit (JNum 1000))]);
             ("containers", IArr [
                IObj [ ("name", ILit (JStr "chartmuseum"));
                       ("image", ILit (JStr "chartmuseum/chartmuseum:v0.12.0"));
                       ("imagePullPolicy", ILit (JStr "IfNotPresent"));
                       ("env", IArr env);
                       ("args", IArr [ILit (JStr "--port=8080")]);
                       ("ports", IArr [
                          IObj [ ("name", ILit (JStr "http"));
                                 ("containerPort", ILit (JNum 8080)) ] ]);
                       ("livenessProbe", health_probe);
                       ("readinessProbe", health_probe) ] ]);
             ("volumes", IArr [
                IObj [ ("name", ILit (JStr "storage-volume"));
                       ("emptyDir", IObj []) ] ]) ]) ]) ]) ].

Definition service_args (labels : JsValue) (a : JsObject) (ns : Ref) : Input :=
  IObj [
    ("metadata", IObj [ ("labels", ILit labels);
                        ("namespace", IOut (mkOut ns ["metadata"; "name"])) ]);
    ("spec", IObj [
       ("type", ILit (opt_member (obj_get "service" a) "type"));
       ("ports", IArr [
          IObj [ ("port", ILit (JNum 80));
                 ("targetPort", ILit (JStr "http"));
                 ("protocol", ILit (JStr "TCP"));
                 ("name", ILit (JStr "http")) ] ]);
       ("selector", ILit labels) ]) ].

Section Constructor.

(** The module-level constants read from the stack configuration. *)
Variables (provider region : string).

(** What the [switch (provider)] leaves behind: the bucket, the secret,
    and the two [cloudProvider] fields. *)
Definition provision (name : string) (labels : JsValue) (self ns : Ref)
  : M (Ref * Ref * string * string) :=
  if String.eqb provider "aws" then
    bucket <- new_resource S3Bucket ("chartmuseum-" ++ name ++ "-bucket")
                (IObj []) (mkOpts (Some self) []) ;;
    iamUser <- new_resource IamUser ("chartmuseum-" ++ name ++ "-iam-user")
                 (IObj [("path", ILit (JStr "/chartmuseum/"))])
                 (mkOpts (Some self) []) ;;
    _ <- new_resource IamUserPolicy ("chartmuseum-" ++ name ++ "-iam-policy")
           (IObj [ ("user", IOut (mkOut iamUser ["name"]));
                   ("policy", IApply (mkOut bucket ["bucket"]) policy_callback) ])
           (mkOpts (Some iamUser) []) ;;
    accessKey <- new_resource IamAccessKey
                   ("chartmuseum-" ++ name ++ "-iam-accesskey")
                   (IObj [("user", IOut (mkOut iamUser ["name"]))])
                   (mkOpts (Some iamUser) []) ;;
    secret <- new_resource K8sSecret ("chartmuseum-" ++ name ++ "-secret")
                (IObj [
                   ("metadata", IObj [
                      ("namespace", IOut (mkOut ns ["metadata"; "name"]));
                      ("labels", ILit labels) ]);
                   ("data", IObj [
                      ("AWS_ACCESS_KEY_ID",
                       IApply (mkOut accessKey ["id"]) base64_callback);
                      ("AWS_SECRET_ACCESS_KEY",
                       IApply (mkOut accessKey ["secret"]) base64_callback) ]) ])
                (mkOpts (Some ns) []) ;;
    ret (bucket, secret, "amazon", region)
  else
    throw (RunError "Must specify a cloud provider").

(** [new ChartMuseum(name, args, opts)] *)
Definition ChartMuseum (name : string) (user : option JsObject)
           (o : option ResourceOptions) : M ChartMuseumObj :=
  self <- new_resource (Component "jaxxstorm:chartmuseum") name (IObj [])
            (match o with Some o' => o' | None => no_opts end) ;;
  let a := resolve_args user in
  let api := String_of_bool (js_not (obj_get "api" a)) in
  let metrics := String_of_bool (js_not (obj_get "metrics" a)) in
  let labels := labels_of name in
  ns <- new_resource K8sNamespace ("chartmuseum-" ++ name ++ "-namespace")
          (IObj [("metadata", IObj [ ("name", ILit (obj_get "namespace" a));
                                     ("labels", ILit labels) ])])
          (mkOpts (Some self) []) ;;
  p <- provision name labels self ns ;;
  let '(bucket, secret, cloudProvider, cloudProviderRegion) := p in
  dep <- new_resource K8sDeployment ("chartmuseum-" ++ name ++ "-deployment")
           (deployment_args name labels a ns
              (container_env api metrics cloudProvider cloudProviderRegion
                             bucket secret))
           (mkOpts (Some ns) [bucket]) ;;
  svc <- new_resource K8sService ("chartmuseum-" ++ name ++ "-service")
           (service_args labels a ns)
           (mkOpts (Some ns) []) ;;
  ret (mkChartMuseum self dep ns svc secret bucket cloudProvider
                     cloudProviderRegion name a api metrics).

End Constructor.

End Index.

(** ** src/unnamed/part_000 *)

Module Part000.
Import Js Pulumi.

Definition ChartMuseumDefaults : JsObject :=
  [ ("namespace", JStr "chartmuseum");
    ("replicas", JNum 1);
    ("service", JObj [("type", JStr "ClusterIP")]);
    ("api", JBool false);
    ("metrics", JBool false);
    ("storage", JObj [("cloud", JStr "amazon"); ("region", JStr "us-west-2")]) ].

Record ChartMuseumObj : Type := mkChartMuseum {
  this : Ref;
  deployment : Ref;
  namespace : Ref;
  service : Ref;
  bucket : Ref;
  name_ : string;
  args_ : JsObject;
  api : string;
  metrics : string
}.

(** [{ ...ChartMuseumDefaults, ...args}] *)
Definition resolve_args (user : option JsObject) : JsObject :=
  spread_opt (spread_into [] ChartMuseumDefaults) user.

Definition labels_of (name : string) : JsValue :=
  JObj [("app", JStr "chartmuseum"); ("release", JStr name)].

Definition env_value (n : string) (v : Input) : Input :=
  IObj [("name", ILit (JStr n)); ("value", v)].

Definition bind_err {A B} (r : Error + A) (k : A -> Error + B) : Error + B :=
  match r with
  | inl e => inl e
  | inr a => k a
  end.

(** The [env] array literal, its elements evaluated in source order; the
    reads of [this.args.storage] and the [toUpperCase] calls can throw. *)
Definition container_env (a : JsObject) (api metrics : string) (bucket : Ref)
  : Error + list Input :=
  let storage := obj_get "storage" a in
  bind_err (member storage "cloud") (fun cloud1 =>
  bind_err (member storage "region") (fun region1 =>
  bind_err (call_toUpperCase region1) (fun REGION =>
  bind_err (member storage "region") (fun region2 =>
  bind_err (member storage "cloud") (fun cloud2 =>
  bind_err (call_toUpperCase cloud2) (fun CLOUD =>
  inr [ env_value "DISABLE_API" (ILit (JStr api));
        env_value "DISABLE_METRICS" (ILit (JStr metrics));
        env_value "LOG_JSON" (ILit (JStr "true"));
        env_value "PROV_POST_FORM_FIELD_NAME" (ILit (JStr "prov"));
        env_value "STORAGE" (ILit cloud1);
        env_value ("STORAGE_" ++ REGION ++ "_REGION") (ILit region2);
        env_value ("STORAGE_" ++ CLOUD ++ "_BUCKET")
                  (IOut (mkOut bucket ["bucket"])) ])))))).

Definition health_probe : Input :=
  IObj [ ("httpGet", IObj [ ("path", ILit (JStr "/health"));
                            ("port", ILit (JStr "http")) ]);
         ("failureThreshold", ILit (JNum 3));
         ("initialDelaySeconds", ILit (JNum 5));
         ("periodSeconds", ILit (JNum 10));
         ("successThreshold", ILit (JNum 1));
         ("timeoutSeconds", ILit (JNum 1)) ].

Definition deployment_args (name : string) (labels : JsValue) (a : JsObject)
           (ns : Ref) (env : list Input) : Input :=
  IObj [
    ("metadata", IObj [ ("namespace", IOut (mkOut ns ["metadata"; "name"]));
                        ("name", ILit (JStr name));
                        ("labels", ILit labels) ]);
    ("spec", IObj [
       ("selector", IObj [("matchLabels", ILit labels)]);
       ("replicas", ILit (obj_get "replicas" a));
       ("strategy", IObj [
          ("rollingUpdate", IObj [("maxUnavailable", ILit (JNum 0))]);
          ("type", ILit (JStr "RollingUpdate")) ]);
       ("template", IObj [
          ("metadata", IObj [ ("name", ILit (JStr name));
                              ("labels", ILit labels) ]);
          ("spec", IObj [
             ("securityContext", IObj [("fsGroup", ILit (JNum 1000))]);
             ("containers", IArr [
                IObj [ ("name", ILit (JStr "chartmuseum"));
                       ("image", ILit (JStr "chartmuseum/chartmuseum:v0.12.0"));
                       ("imagePullPolicy", ILit (JStr "IfNotPresent"));
                       ("env", IArr env);
                       ("args", IArr [ILit (JStr "--port=8080")]);
                       ("ports", IArr [
                          IObj [ ("name", ILit (JStr "http"));
                                 ("containerPort", ILit (JNum 8080)) ] ]);
                       ("livenessProbe", health_probe);
                       ("readinessProbe", health_probe);
                       ("volumeMounts", IArr [
                          IObj [ ("mountPath", ILit (JStr "/storage"));
                                 ("name", ILit (JStr "storage-volume")) ] ]) ] ]);
             ("volumes", IArr [
                IObj [ ("name", ILit (JStr "storage-volume"));
                       ("emptyDir", IObj []) ] ]) ]) ]) ]) ].

Definition service_args (name : string) (labels : JsValue) (a : JsObject)
  : Input :=
  IObj [
    ("metadata", IObj [ ("name", ILit (JStr name));
                        ("labels", ILit labels) ]);
    ("spec", IObj [
       ("type", ILit (opt_member (obj_get "service" a) "type"));
       ("ports", IArr [
          IObj [ ("port", ILit (JNum 8080));
                 ("targetPort", ILit (JStr "http"));
                 ("protocol", ILit (JStr "TCP"));
                 ("name", ILit (JStr "http")) ] ]);
       ("selector", ILit labels) ]) ].

(** [new ChartMuseum(name, args, opts)] *)
Definition ChartMuseum (name : string) (user : option JsObject)
           (o : option ResourceOptions) : M ChartMuseumObj :=
  self <- new_resource (Component "jaxxstorm:chartmuseum") name (IObj [])
            (match o with Some o' => o' | None => no_opts end) ;;
  let a := resolve_args user in
  let api := String_of_bool (js_not (obj_get "api" a)) in
  let metrics := String_of_bool (js_not (obj_get "metrics" a)) in
  let labels := labels_of name in
  bucket <- new_resource S3Bucket (name ++ "-bucket") (IObj [])
              (mkOpts (Some self) []) ;;
  ns <- new_resource K8sNamespace (name ++ "-namespace")
          (IObj [("metadata", IObj [ ("name", ILit (obj_get "namespace" a));
                                     ("labels", ILit labels) ])])
          (mkOpts (Some self) []) ;;
  env <- lift (container_env a api metrics bucket) ;;
  dep <- new_resource K8sDeployment (name ++ "-deployment")
           (deployment_args name labels a ns env)
           (mkOpts (Some ns) [bucket]) ;;
  svc <- new_resource K8sService (name ++ "-service")
           (service_args name labels a)
           (mkOpts (Some ns) []) ;;
  ret (mkChartMuseum self dep ns svc bucket name a api metrics).

End Part000.

(** ** Reading a declared graph *)

Module Graph.
Import Js Pulumi.

Definition resource_of_class (c : ResourceClass) (g : list Resource)
  : option Resource :=
  find (fun r => class_eqb (ref_class (urn r)) c) g.

Definition count_class (c : ResourceClass) (g : list Resource) : nat :=
  List.length (filter (fun r => class_eqb (ref_class (urn r)) c) g).

(** The single container of a deployment and its [env] array. *)
Definition container_of (deployment_args : Input) : Input :=
  hd (ILit JUndefined)
     (items_of (at_path ["spec"; "template"; "spec"; "containers"]
                        deployment_args)).

Definition env_of (deployment_args : Input) : list Input :=
  items_of (at_path ["env"] (container_of deployment_args)).

Definition env_name (e : Input) : Input := at_path ["name"] e.

Definition env_names (deployment_args : Input) : list Input :=
  map env_name (env_of deployment_args).

Definition has_name (n : string) (e : Input) : bool :=
  match env_name e with
  | ILit (JStr s) => String.eqb s n
  | _ => false
  end.

(** The [value] of the first variable called [n]. *)
Definition env_lookup (n : string) (env : list Input) : option Input :=
  match find (has_name n) env with
  | Some e => Some (at_path ["value"] e)
  | None => None
  end.

(** Ownership inside one composition: [child] was declared with
    [{parent: par}].  The component's own parent comes from the caller and
    is not an edge of the composition. *)
Definition owned_by (root : Ref) (g : list Resource) (child par : Ref) : Prop :=
  exists r, In r g /\ urn r = child /\ child <> root /\
            parent (opts r) = Some par.

(** The ownership of [g] is a tree with root [root]: every other resource
    descends from the root, nothing is its own ancestor, and nothing has
    two owners. *)
Record ownership_tree (root : Ref) (g : list Resource) : Prop := {
  tree_rooted : forall r, In r g -> urn r <> root ->
                          clos_trans Ref (owned_by root g) (urn r) root;
  tree_acyclic : forall x, ~ clos_trans Ref (owned_by root g) x x;
  tree_one_owner : forall c p1 p2,
      owned_by root g c p1 -> owned_by root g c p2 -> p1 = p2
}.

(** The declared resources with their owners. *)
Definition edges (g : list Resource) : list (Ref * option Ref) :=
  map (fun r => (urn r, parent (opts r))) g.

(** The owner of the first resource of a class. *)
Definition parent_of_class (c : ResourceClass) (g : list Resource)
  : option Ref :=
  match resource_of_class c g with
  | Some r => parent (opts r)
  | None => None
  end.

(** Depth of a class of resource below the component in [src/index.ts]. *)
Definition depth (r : Ref) : nat :=
  match ref_class r with
  | Component _ => 0
  | K8sNamespace | S3Bucket | IamUser => 1
  | _ => 2
  end.

(** The statements of a policy document as (effect, actions, resource). *)
Definition statements (doc : JsValue) : list JsValue :=
  match opt_member doc "Statement" with
  | JArr l => l
  | _ => []
  end.

Definition statement_grant (s : JsValue) : JsValue * JsValue * JsValue :=
  (opt_member s "Effect", opt_member s "Action", opt_member s "Resource").

(** What one call of the constructor declares, and how it ends. *)
Definition index_graph (provider region name : string)
           (user : option JsObject) (o : option ResourceOptions)
           (st : Engine) : list Resource :=
  declared st (fst (Index.ChartMuseum provider region name user o st)).

Definition index_outcome (provider region name : string)
           (user : option JsObject) (o : option ResourceOptions)
           (st : Engine) : Error + Index.ChartMuseumObj :=
  snd (Index.ChartMuseum provider region name user o st).

Definition part000_graph (name : string)
           (user : option JsObject) (o : option ResourceOptions)
           (st : Engine) : list Resource :=
  declared st (fst (Part000.ChartMuseum name user o st)).

Definition part000_outcome (name : string)
           (user : option JsObject) (o : option ResourceOptions)
           (st : Engine) : Error + Part000.ChartMuseumObj :=
  snd (Part000.ChartMuseum name user o st).

(** The argument tree of the first resource of a class, if any. *)
Definition args_of_class (c : ResourceClass) (g : list Resource) : Input :=
  match resource_of_class c g with
  | Some r => args r
  | None => ILit JUndefined
  end.

End Graph.

(** ** References, keys and names *)

Module Scope.
Import Js Pulumi Graph.

(** The class and name of the first declared resource of a class. *)
Definition urn_of_class (c : ResourceClass) (g : list Resource) : option Ref :=
  option_map urn (resource_of_class c g).

(** The resources an argument tree mentions through outputs. *)
Fixpoint input_refs (i : Input) : list Ref :=
  match i with
  | ILit _ => []
  | IOut o => [out_resource o]
  | IApply o _ => [out_resource o]
  | IArr items => flat_map input_refs items
  | IObj props =>
      flat_map (fun kv => match kv with (_, v) => input_refs v end) props
  end.

(** Every resource a declaration mentions: its parent, what it depends on
    and the outputs in its arguments. *)
Definition resource_refs (r : Resource) : list Ref :=
  (match parent (opts r) with Some p => [p] | None => [] end
   ++ dependsOn (opts r) ++ input_refs (args r))%list.

(** Each declaration of [g] mentions only resources of [seen] or resources
    declared before it in [g]. *)
Fixpoint scoped (seen : list Ref) (g : list Resource) : Prop :=
  match g with
  | [] => True
  | r :: rest =>
      (forall x, In x (resource_refs r) -> In x seen)
      /\ scoped (urn r :: seen) rest
  end.

Definition urns (g : list Resource) : list Ref := map urn g.

(** The property names of an object literal of an argument tree. *)
Definition prop_keys (i : Input) : list string :=
  match i with
  | IObj props => map fst props
  | _ => []
  end.

(** The property names of an object, as stored. *)
Definition keys (o : JsObject) : list string := map fst o.

Fixpoint last_char (s : string) : option ascii :=
  match s with
  | EmptyString => None
  | String c EmptyString => Some c
  | String _ rest => last_char rest
  end.

(** The names [src/index.ts] gives to what it declares for [name]. *)
Definition index_urns (name : string) : list Ref :=
  [ mkRef (Component "jaxxstorm:chartmuseum") name;
    mkRef K8sNamespace ("chartmuseum-" ++ name ++ "-namespace");
    mkRef S3Bucket ("chartmuseum-" ++ name ++ "-bucket");
    mkRef IamUser ("chartmuseum-" ++ name ++ "-iam-user");
    mkRef IamUserPolicy ("chartmuseum-" ++ name ++ "-iam-policy");
    mkRef IamAccessKey ("chartmuseum-" ++ name ++ "-iam-accesskey");
    mkRef K8sSecret ("chartmuseum-" ++ name ++ "-secret");
    mkRef K8sDeployment ("chartmuseum-" ++ name ++ "-deployment");
    mkRef K8sService ("chartmuseum-" ++ name ++ "-service") ].

(** The names [src/unnamed/part_000] gives to what it declares. *)
Definition part000_urns (name : string) : list Ref :=
  [ mkRef (Component "jaxxstorm:chartmuseum") name;
    mkRef S3Bucket (name ++ "-bucket");
    mkRef K8sNamespace (name ++ "-namespace");
    mkRef K8sDeployment (name ++ "-deployment");
    mkRef K8sService (name ++ "-service") ].

(** An entry of an [env] array is either a plain variable or one read from
    a key of the secret [secret] whose data is [data]. *)
Definition env_entry_ok (secret : Ref) (data : Input) (e : Input) : Prop :=
  (at_path ["valueFrom"] e = ILit JUndefined
   /\ at_path ["value"] e <> ILit JUndefined)
  \/ (at_path ["value"] e = ILit JUndefined
      /\ at_path ["valueFrom"; "secretKeyRef"; "name"] e
         = IOut (mkOut secret ["metadata"; "name"])
      /\ exists k, at_path ["valueFrom"; "secretKeyRef"; "key"] e
                   = ILit (JStr k)
                   /\ In k (prop_keys data)).

(** What a reader of the secret does with a stored value: base64
    decoding after RFC 4648, with its own table of the 64 characters. *)
Definition base64_value (c : ascii) : option nat :=
  let n := nat_of_ascii c in
  if andb (Nat.leb 65 n) (Nat.leb n 90) then Some (n - 65)
  else if andb (Nat.leb 97 n) (Nat.leb n 122) then Some (n - 71)
  else if andb (Nat.leb 48 n) (Nat.leb n 57) then Some (n + 4)
  else if Nat.eqb n 43 then Some 62
  else if Nat.eqb n 47 then Some 63
  else None.

Definition is_pad (c : ascii) : bool := Ascii.eqb c "="%char.

Fixpoint base64_decode (cs : list ascii) : option (list nat) :=
  match cs with
  | [] => Some []
  | c1 :: c2 :: c3 :: c4 :: rest =>
      match base64_value c1, base64_value c2 with
      | Some v1, Some v2 =>
          if is_pad c3 then
            match is_pad c4, rest with
            | true, [] => Some [v1 * 4 + v2 / 16]
            | _, _ => None
            end
          else
            match base64_value c3 with
            | Some v3 =>
                if is_pad c4 then
                  match rest with
                  | [] => Some [v1 * 4 + v2 / 16; (v2 mod 16) * 16 + v3 / 4]
                  | _ => None
                  end
                else
                  match base64_value c4, base64_decode rest with
                  | Some v4, Some tl =>
                      Some (v1 * 4 + v2 / 16
                            :: (v2 mod 16) * 16 + v3 / 4
                            :: (v3 mod 4) * 64 + v4 :: tl)
                  | _, _ => None
                  end
            | None => None
            end
      | _, _ => None
      end
  | _ => None
  end.

Definition from_base64 (t : string) : option string :=
  match base64_decode (list_ascii_of_string t) with
  | Some bs => Some (string_of_list_ascii (map ascii_of_nat bs))
  | None => None
  end.

(** A key written with digits only.  The array-index keys, which
    JavaScript lists before all others, are among these. *)
Definition is_digit (c : ascii) : bool :=
  andb (Nat.leb 48 (nat_of_ascii c)) (Nat.leb (nat_of_ascii c) 57).

Fixpoint all_digits (s : string) : bool :=
  match s with
  | EmptyString => true
  | String c rest => andb (is_digit c) (all_digits rest)
  end.

Definition digits_only (k : string) : bool :=
  match k with
  | EmptyString => false
  | String _ _ => all_digits k
  end.

(** A string of ASCII characters, on which [toUpperCase] is exact. *)
Fixpoint ascii_only (s : string) : bool :=
  match s with
  | EmptyString => true
  | String c rest => andb (Nat.ltb (nat_of_ascii c) 128) (ascii_only rest)
  end.

(** The keys of the resolved arguments that [src/index.ts] reads. *)
Definition index_reads : list string :=
  ["namespace"; "replicas"; "service"; "api"; "metrics"].

(** The resources and provider fields of the component object, or the
    error the constructor threw. *)
Definition index_fields (r : Error + Index.ChartMuseumObj)
  : Error + (Ref * Ref * Ref * Ref * Ref * Ref * string * string) :=
  match r with
  | inl e => inl e
  | inr obj =>
      inr (Index.this obj, Index.deployment obj, Index.namespace obj,
           Index.service obj, Index.secret obj, Index.bucket obj,
           Index.cloudProvider obj, Index.cloudProviderRegion obj)
  end.

End Scope.

(** ** Facts about objects and the spread *)

Module JsFacts.
Import Js.

Lemma obj_get_set_same (k : string) (v : JsValue) (o : JsObject) :
  obj_get k (obj_set k v o) = v.
Proof.
  induction o as [|[k' v'] rest IH]; simpl.
  - now rewrite String.eqb_refl.
  - destruct (String.eqb k k') eqn:E; simpl; rewrite E; auto.
Qed.

Lemma obj_get_set_other (k k' : string) (v : JsValue) (o : JsObject) :
  String.eqb k k' = false -> obj_get k (obj_set k' v o) = obj_get k o.
Proof.
  intros Hne. induction o as [|[k0 v0] rest IH]; simpl.
  - now rewrite Hne.
  - destruct (String.eqb k' k0) eqn:E; simpl.
    + apply String.eqb_eq in E. subst k0. now rewrite Hne.
    + destruct (String.eqb k k0); auto.
Qed.

Lemma obj_get_fold (source : JsObject) (keys : list string) :
  forall (target : JsObject) (k : string),
    obj_get k (fold_left (fun t k' => obj_set k' (obj_get k' source) t)
                         keys target)
    = if existsb (String.eqb k) keys then obj_get k source
      else obj_get k target.
Proof.
  induction keys as [|k0 keys IH]; intros target k; simpl; auto.
  rewrite IH. destruct (String.eqb k k0) eqn:E; simpl.
  - apply String.eqb_eq in E. subst k0.
    rewrite obj_get_set_same. now destruct (existsb _ keys).
  - now rewrite obj_get_set_other.
Qed.

Lemma existsb_filter_other (k k0 : string) (l : list string) :
  String.eqb k k0 = false ->
  existsb (String.eqb k) (filter (fun k' => negb (String.eqb k' k0)) l)
  = existsb (String.eqb k) l.
Proof.
  intros Hne. induction l as [|x l IH]; simpl; auto.
  destruct (String.eqb x k0) eqn:E; simpl.
  - apply String.eqb_eq in E. subst x. now rewrite Hne.
  - now rewrite IH.
Qed.

Lemma own_keys_has (k : string) (o : JsObject) :
  existsb (String.eqb k) (own_keys o) = obj_has k o.
Proof.
  induction o as [|[k0 v0] rest IH]; simpl; auto.
  destruct (String.eqb k k0) eqn:E; simpl; auto.
  now rewrite existsb_filter_other.
Qed.

(** Reading a key after [{...target, ...source}]. *)
Lemma obj_get_spread_into (target source : JsObject) (k : string) :
  obj_get k (spread_into target source)
  = if obj_has k source then obj_get k source else obj_get k target.
Proof.
  unfold spread_into. now rewrite obj_get_fold, own_keys_has.
Qed.

Lemma obj_get_spread_opt (target : JsObject) (source : option JsObject)
      (k : string) :
  obj_get k (spread_opt target source)
  = match source with
    | Some s => if obj_has k s then obj_get k s else obj_get k target
    | None => obj_get k target
    end.
Proof.
  destruct source; simpl; auto using obj_get_spread_into.
Qed.

End JsFacts.

(** ** Running the constructors *)

Module RunFacts.
Import Js Pulumi Graph.

Lemma declared_app (st g : Engine) : declared st (st ++ g)%list = g.
Proof.
  unfold declared. now rewrite skipn_app, skipn_all, Nat.sub_diag.
Qed.

(** The constructor only appends to the log, and what it appends does not
    depend on what the log held. *)
Lemma index_frame provider region name user o st :
  Index.ChartMuseum provider region name user o st
  = ((st ++ fst (Index.ChartMuseum provider region name user o []))%list,
     snd (Index.ChartMuseum provider region name user o [])).
Proof.
  unfold Index.ChartMuseum, Index.provision, bind, new_resource, ret, throw.
  destruct name as [|c n]; [simpl; now rewrite app_nil_r|].
  destruct (String.eqb provider "aws"); simpl;
    rewrite <- ?app_assoc; reflexivity.
Qed.

Lemma index_graph_frame provider region name user o st :
  index_graph provider region name user o st
  = index_graph provider region name user o [].
Proof.
  unfold index_graph. rewrite index_frame. simpl fst.
  rewrite declared_app. reflexivity.
Qed.

Lemma index_outcome_frame provider region name user o st :
  index_outcome provider region name user o st
  = index_outcome provider region name user o [].
Proof.
  unfold index_outcome. now rewrite index_frame.
Qed.

Lemma part000_frame name user o st :
  Part000.ChartMuseum name user o st
  = ((st ++ fst (Part000.ChartMuseum name user o []))%list,
     snd (Part000.ChartMuseum name user o [])).
Proof.
  unfold Part000.ChartMuseum, bind, new_resource, ret, throw, lift.
  destruct name as [|c n]; simpl; [now rewrite app_nil_r|].
  destruct (Part000.container_env _ _ _ _); simpl;
    rewrite <- ?app_assoc; reflexivity.
Qed.

Lemma part000_graph_frame name user o st :
  part000_graph name user o st = part000_graph name user o [].
Proof.
  unfold part000_graph. rewrite part000_frame. simpl fst.
  rewrite declared_app. reflexivity.
Qed.

Lemma part000_outcome_frame name user o st :
  part000_outcome name user o st = part000_outcome name user o [].
Proof.
  unfold part000_outcome. now rewrite part000_frame.
Qed.

(** With an empty name the call of [super] throws and nothing is
    declared, in both files. *)
Lemma index_empty_name provider region user o :
  index_outcome provider region EmptyString user o [] = inl ResourceError
  /\ index_graph provider region EmptyString user o [] = [].
Proof. split; reflexivity. Qed.

Lemma part000_empty_name user o :
  part000_outcome EmptyString user o [] = inl ResourceError
  /\ part000_graph EmptyString user o [] = [].
Proof. split; reflexivity. Qed.

(** With a name and any provider but ["aws"] the switch takes its default
    branch. *)
Lemma index_unsupported provider region c n user o :
  String.eqb provider "aws" = false ->
  index_outcome provider region (String c n) user o []
  = inl (RunError "Must specify a cloud provider")
  /\ classes (index_graph provider region (String c n) user o [])
     = [Component "jaxxstorm:chartmuseum"; K8sNamespace].
Proof.
  intros E. unfold index_outcome, index_graph, Index.ChartMuseum,
    Index.provision, bind, new_resource, ret, throw.
  rewrite E. simpl. split; reflexivity.
Qed.

(** With a name and ["aws"] the constructor returns, having declared nine
    resources. *)
Lemma index_aws_returns region c n user o :
  exists obj, index_outcome "aws" region (String c n) user o [] = inr obj.
Proof. eexists. reflexivity. Qed.

Lemma index_aws_classes region c n user o :
  classes (index_graph "aws" region (String c n) user o [])
  = [ Component "jaxxstorm:chartmuseum"; K8sNamespace; S3Bucket; IamUser;
      IamUserPolicy; IamAccessKey; K8sSecret; K8sDeployment; K8sService ].
Proof. reflexivity. Qed.

(** A returning run of [src/index.ts] had provider ["aws"] and a name. *)
Lemma index_returns_aws provider region name user o obj :
  index_outcome provider region name user o [] = inr obj ->
  provider = "aws" /\ exists c n, name = String c n.
Proof.
  intros H. destruct name as [|c n]; [discriminate H|].
  split; [|eauto].
  destruct (String.eqb provider "aws") eqn:E.
  - now apply String.eqb_eq.
  - destruct (index_unsupported provider region c n user o E) as [H' _].
    rewrite H' in H. discriminate.
Qed.

(** A returning run of [src/unnamed/part_000] had a name. *)
Lemma part000_returns_name name user o obj :
  part000_outcome name user o [] = inr obj -> exists c n, name = String c n.
Proof.
  intros H. destruct name as [|c n]; [discriminate H | eauto].
Qed.

Lemma nonempty_name (name : string) :
  name <> EmptyString -> exists c n, name = String c n.
Proof.
  destruct name as [|c n]; [congruence | eauto].
Qed.

End RunFacts.

(** ** The claims *)

Import Js Pulumi Graph Scope.

(** *** Helper lemmas on the declared deployment and service *)

Lemma index_disable_api region c n user o :
  env_lookup "DISABLE_API"
    (env_of (args_of_class K8sDeployment
               (index_graph "aws" region (String c n) user o [])))
  = Some (ILit (JStr (String_of_bool
                        (js_not (obj_get "api" (Index.resolve_args user)))))).
Proof. reflexivity. Qed.

Lemma index_disable_metrics region c n user o :
  env_lookup "DISABLE_METRICS"
    (env_of (args_of_class K8sDeployment
               (index_graph "aws" region (String c n) user o [])))
  = Some (ILit (JStr (String_of_bool
                        (js_not (obj_get "metrics" (Index.resolve_args user)))))).
Proof. reflexivity. Qed.

Lemma index_service_type region c n user o :
  at_path ["spec"; "type"]
    (args_of_class K8sService (index_graph "aws" region (String c n) user o []))
  = ILit (opt_member (obj_get "service" (Index.resolve_args user)) "type").
Proof. reflexivity. Qed.

Lemma index_resolve_get (user : option JsObject) (k : string) :
  obj_get k (Index.resolve_args user)
  = match user with
    | Some u => if obj_has k u then obj_get k u
                else obj_get k Index.ChartMuseumDefaults
    | None => obj_get k Index.ChartMuseumDefaults
    end.
Proof.
  unfold Index.resolve_args. rewrite JsFacts.obj_get_spread_opt.
  reflexivity.
Qed.

Lemma part000_resolve_get (user : option JsObject) (k : string) :
  obj_get k (Part000.resolve_args user)
  = match user with
    | Some u => if obj_has k u then obj_get k u
                else obj_get k Part000.ChartMuseumDefaults
    | None => obj_get k Part000.ChartMuseumDefaults
    end.
Proof.
  unfold Part000.resolve_args. rewrite JsFacts.obj_get_spread_opt.
  reflexivity.
Qed.

(** A returning run of [src/index.ts], from any log, had provider ["aws"]
    and a name, and declared what the run from the empty log declares. *)
Lemma index_returning provider region name user o st obj :
  index_outcome provider region name user o st = inr obj ->
  provider = "aws"
  /\ exists c n,
      name = String c n
      /\ index_graph provider region name user o st
         = index_graph "aws" region (String c n) user o []
      /\ index_outcome "aws" region (String c n) user o [] = inr obj.
Proof.
  intros H. rewrite RunFacts.index_outcome_frame in H.
  destruct (RunFacts.index_returns_aws _ _ _ _ _ _ H) as [-> (c & n & ->)].
  split; auto. exists c, n. rewrite RunFacts.index_graph_frame. auto.
Qed.

(** The graph is a function of the resolved values the constructor reads. *)
Lemma index_graph_reads provider region name o u1 u2 :
  (forall k, In k index_reads ->
             obj_get k (Index.resolve_args u1)
             = obj_get k (Index.resolve_args u2)) ->
  index_graph provider region name u1 o []
  = index_graph provider region name u2 o []
  /\ index_fields (index_outcome provider region name u1 o [])
     = index_fields (index_outcome provider region name u2 o []).
Proof.
  intros H.
  assert (Hn := H "namespace"). assert (Hr := H "replicas").
  assert (Hs := H "service"). assert (Ha := H "api").
  assert (Hm := H "metrics"). clear H.
  unfold index_reads in *. simpl in Hn, Hr, Hs, Ha, Hm.
  destruct name as [|c n]; [split; reflexivity|].
  unfold index_graph, index_outcome, Index.ChartMuseum, Index.provision,
    bind, new_resource, ret, throw.
  destruct (String.eqb provider "aws");
    with_strategy opaque [Index.resolve_args]
      (simpl; unfold Index.deployment_args, Index.service_args);
    rewrite Hn, ?Hr, ?Hs, ?Ha, ?Hm by tauto; split; reflexivity.
Qed.

(** *** C5 *)

(** C5: composition is deterministic.  What the constructor of
    [src/index.ts] declares, and the resources its object names, are fixed by
    the provider, the region, the name, the options and the five values it
    reads from the resolved user arguments: two runs that agree on these
    declare the same list of resources and end the same way, whatever the
    engine had registered before each run and however else their user
    arguments differ.  In particular two runs with identical inputs produce
    identical graphs, with the same labels and the same order of the
    environment variables. *)
Theorem compose_deterministic :
  forall provider region name o u1 u2 (st1 st2 : Engine),
    (forall k, In k index_reads ->
               obj_get k (Index.resolve_args u1)
               = obj_get k (Index.resolve_args u2)) ->
    index_graph provider region name u1 o st1
    = index_graph provider region name u2 o st2
    /\ index_fields (index_outcome provider region name u1 o st1)
       = index_fields (index_outcome provider region name u2 o st2)
    /\ map (fun r => at_path ["metadata"; "labels"] (args r))
           (index_graph provider region name u1 o st1)
       = map (fun r => at_path ["metadata"; "labels"] (args r))
             (index_graph provider region name u2 o st2)
    /\ env_of (args_of_class K8sDeployment
                 (index_graph provider region name u1 o st1))
       = env_of (args_of_class K8sDeployment
                   (index_graph provider region name u2 o st2)).
Proof.
  intros provider region name o u1 u2 st1 st2 H.
  rewrite (RunFacts.index_outcome_frame _ _ _ _ _ st1),
          (RunFacts.index_outcome_frame _ _ _ _ _ st2),
          (RunFacts.index_graph_frame _ _ _ _ _ st1),
          (RunFacts.index_graph_frame _ _ _ _ _ st2).
  destruct (index_graph_reads provider region name o u1 u2 H) as [Hg Hf].
  rewrite Hg. repeat split. exact Hf.
Qed.

Lemma compose_deterministic_reordered_args :
  index_graph "aws" "us-west-2" "cm"
    (Some [("replicas", JNum 2); ("owner", JStr "x")]) None []
  = index_graph "aws" "us-west-2" "cm"
      (Some [("team", JNull); ("replicas", JNum 2)]) None
      [mkResource (mkRef S3Bucket "other") (IObj []) no_opts].
Proof.
  refine (proj1 (compose_deterministic "aws" "us-west-2" "cm" None
                   (Some [("replicas", JNum 2); ("owner", JStr "x")])
                   (Some [("team", JNull); ("replicas", JNum 2)])
                   [] [mkResource (mkRef S3Bucket "other") (IObj []) no_opts]
                   _)).
  intros k Hk. simpl in Hk.
  repeat (destruct Hk as [<- | Hk]; [reflexivity|]). contradiction.
Defined.

(** *** C3 *)

(** C3: with a provider other than ["aws"] the constructor of
    [src/index.ts] never returns and never declares a bucket, an IAM user,
    policy or access key, or a secret.  For every non-empty name it throws
    the run error of the switch's default branch, having registered only the
    component and its namespace.  (With an empty name the SDK refuses the
    component itself, before the switch is reached.) *)
Theorem unsupported_provider_declares_no_storage :
  forall provider region name user o (st : Engine),
    provider <> "aws" ->
    (exists e, index_outcome provider region name user o st = inl e)
    /\ (forall r, In r (index_graph provider region name user o st) ->
                  is_storage_or_credential (ref_class (urn r)) = false)
    /\ (name <> EmptyString ->
        index_outcome provider region name user o st
        = inl (RunError "Must specify a cloud provider")
        /\ classes (index_graph provider region name user o st)
           = [Component "jaxxstorm:chartmuseum"; K8sNamespace]).
Proof.
  intros provider region name user o st Hne.
  apply String.eqb_neq in Hne.
  rewrite RunFacts.index_outcome_frame, RunFacts.index_graph_frame.
  destruct name as [|c n].
  - split; [eexists; reflexivity|]. split; [intros r []|]. congruence.
  - destruct (RunFacts.index_unsupported provider region c n user o Hne)
      as [Hout Hcls].
    split; [eauto|]. split; [|auto].
    intros r Hin.
    assert (Hc : In (ref_class (urn r))
                    (classes (index_graph provider region (String c n)
                                          user o []))).
    { unfold classes. now apply (in_map (fun x => ref_class (urn x))). }
    rewrite Hcls in Hc. simpl in Hc.
    destruct Hc as [<- | [<- | []]]; reflexivity.
Qed.

Lemma unsupported_provider_gcp :
  index_outcome "gcp" "us-west-2" "cm" None None []
  = inl (RunError "Must specify a cloud provider")
  /\ (forall r, In r (index_graph "gcp" "us-west-2" "cm" None None []) ->
                is_storage_or_credential (ref_class (urn r)) = false)
  /\ classes (index_graph "gcp" "us-west-2" "cm" None None [])
     = [Component "jaxxstorm:chartmuseum"; K8sNamespace].
Proof.
  assert (Hp : "gcp" <> "aws") by discriminate.
  assert (Hn : "cm" <> EmptyString) by discriminate.
  destruct (unsupported_provider_declares_no_storage
              "gcp" "us-west-2" "cm" None None [] Hp) as (_ & Hs & H).
  destruct (H Hn) as [Ho Hc].
  split; [exact Ho | split; [exact Hs | exact Hc]].
Defined.

(** *** C6 *)

(** C6: in the deployment declared by a returning run of [src/index.ts],
    the value of [DISABLE_API] is ["false"] when the resolved [api] flag is
    [true] and ["true"] when it is [false]; [DISABLE_METRICS] inverts the
    resolved [metrics] flag in the same way. *)
Theorem disable_flags_invert :
  forall provider region name user o (st : Engine) obj (b : bool),
    index_outcome provider region name user o st = inr obj ->
    (obj_get "api" (Index.resolve_args user) = JBool b ->
     env_lookup "DISABLE_API"
       (env_of (args_of_class K8sDeployment
                  (index_graph provider region name user o st)))
     = Some (ILit (JStr (if b then "false" else "true"))))
    /\ (obj_get "metrics" (Index.resolve_args user) = JBool b ->
        env_lookup "DISABLE_METRICS"
          (env_of (args_of_class K8sDeployment
                     (index_graph provider region name user o st)))
        = Some (ILit (JStr (if b then "false" else "true")))).
Proof.
  intros provider region name user o st obj b Hret.
  destruct (index_returning _ _ _ _ _ _ _ Hret) as [_ (c & n & _ & -> & _)].
  rewrite index_disable_api, index_disable_metrics.
  split; intros ->; destruct b; reflexivity.
Qed.

Lemma disable_flags_invert_api_on :
  env_lookup "DISABLE_API"
    (env_of (args_of_class K8sDeployment
               (index_graph "aws" "us-west-2" "cm"
                  (Some [("api", JBool true); ("metrics", JBool true)])
                  None [])))
  = Some (ILit (JStr "false"))
  /\ env_lookup "DISABLE_METRICS"
       (env_of (args_of_class K8sDeployment
                  (index_graph "aws" "us-west-2" "cm"
                     (Some [("api", JBool true); ("metrics", JBool true)])
                     None [])))
     = Some (ILit (JStr "false")).
Proof.
  destruct (RunFacts.index_aws_returns "us-west-2" "c"%char "m"
              (Some [("api", JBool true); ("metrics", JBool true)]) None)
    as [obj Hobj].
  destruct (disable_flags_invert "aws" "us-west-2" "cm"
              (Some [("api", JBool true); ("metrics", JBool true)])
              None [] obj true Hobj) as [Ha Hm].
  split; [apply Ha | apply Hm]; reflexivity.
Defined.

(** *** C8 *)

(** C8: when the constructor of [src/index.ts] returns, for component name
    [name], the one service it declared selects pods by
    [{app: "chartmuseum", release: name}], and the one deployment carries the
    same object as its labels, as its selector's [matchLabels] and as the
    labels of its pod template. *)
Theorem service_selector_is_deployment_labels :
  forall provider region name user o (st : Engine) obj,
    index_outcome provider region name user o st = inr obj ->
    let g := index_graph provider region name user o st in
    let labels :=
      ILit (JObj [("app", JStr "chartmuseum"); ("release", JStr name)]) in
    at_path ["spec"; "selector"] (args_of_class K8sService g) = labels
    /\ at_path ["metadata"; "labels"] (args_of_class K8sDeployment g) = labels
    /\ at_path ["spec"; "selector"; "matchLabels"]
               (args_of_class K8sDeployment g) = labels
    /\ at_path ["spec"; "template"; "metadata"; "labels"]
               (args_of_class K8sDeployment g) = labels
    /\ count_class K8sService g = 1
    /\ count_class K8sDeployment g = 1.
Proof.
  intros provider region name user o st obj Hret g labels.
  subst g labels.
  destruct (index_returning _ _ _ _ _ _ _ Hret) as [_ (c & n & -> & -> & _)].
  repeat split; reflexivity.
Qed.

Lemma service_selector_cm :
  at_path ["spec"; "selector"]
    (args_of_class K8sService (index_graph "aws" "us-west-2" "cm" None None []))
  = ILit (JObj [("app", JStr "chartmuseum"); ("release", JStr "cm")])
  /\ at_path ["metadata"; "labels"]
       (args_of_class K8sDeployment
          (index_graph "aws" "us-west-2" "cm" None None []))
     = ILit (JObj [("app", JStr "chartmuseum"); ("release", JStr "cm")]).
Proof.
  destruct (RunFacts.index_aws_returns "us-west-2" "c"%char "m" None None)
    as [obj Hobj].
  destruct (service_selector_is_deployment_labels
              "aws" "us-west-2" "cm" None None [] obj Hobj)
    as [Hs [Hd _]].
  split; [exact Hs | exact Hd].
Defined.

(** *** C10 *)

(** C10: a key that the user arguments hold with the value [undefined]
    overrides the default.  For every non-empty name, with
    [service: undefined] the declared service has [spec.type] undefined,
    where arguments without a [service] key (or no arguments at all) give
    ["ClusterIP"]; with [api: undefined] the deployment gets
    [DISABLE_API] = ["true"]. *)
Theorem explicit_undefined_overrides_default :
  forall region name (user : JsObject) o (st : Engine),
    name <> EmptyString ->
    (obj_has "service" user = true -> obj_get "service" user = JUndefined ->
     at_path ["spec"; "type"]
       (args_of_class K8sService
          (index_graph "aws" region name (Some user) o st))
     = ILit JUndefined)
    /\ (obj_has "api" user = true -> obj_get "api" user = JUndefined ->
        env_lookup "DISABLE_API"
          (env_of (args_of_class K8sDeployment
                     (index_graph "aws" region name (Some user) o st)))
        = Some (ILit (JStr "true")))
    /\ (obj_has "service" user = false ->
        at_path ["spec"; "type"]
          (args_of_class K8sService
             (index_graph "aws" region name (Some user) o st))
        = ILit (JStr "ClusterIP"))
    /\ at_path ["spec"; "type"]
         (args_of_class K8sService (index_graph "aws" region name None o st))
       = ILit (JStr "ClusterIP").
Proof.
  intros region name user o st Hname.
  destruct (RunFacts.nonempty_name name Hname) as (c & n & ->).
  rewrite (RunFacts.index_graph_frame _ _ _ (Some user) _ st),
          (RunFacts.index_graph_frame _ _ _ None _ st).
  rewrite !index_service_type, index_disable_api, !index_resolve_get.
  repeat split.
  - intros -> ->. reflexivity.
  - intros -> ->. reflexivity.
  - intros ->. reflexivity.
Qed.

Lemma explicit_undefined_service_and_api :
  at_path ["spec"; "type"]
    (args_of_class K8sService
       (index_graph "aws" "us-west-2" "cm"
          (Some [("service", JUndefined); ("api", JUndefined)]) None []))
  = ILit JUndefined
  /\ env_lookup "DISABLE_API"
       (env_of (args_of_class K8sDeployment
                  (index_graph "aws" "us-west-2" "cm"
                     (Some [("service", JUndefined); ("api", JUndefined)])
                     None [])))
     = Some (ILit (JStr "true"))
  /\ at_path ["spec"; "type"]
       (args_of_class K8sService
          (index_graph "aws" "us-west-2" "cm"
             (Some [("replicas", JNum 2)]) None []))
     = ILit (JStr "ClusterIP").
Proof.
  assert (Hn : "cm" <> EmptyString) by discriminate.
  destruct (explicit_undefined_overrides_default "us-west-2" "cm"
              [("service", JUndefined); ("api", JUndefined)] None [] Hn)
    as [Hs [Ha _]].
  destruct (explicit_undefined_overrides_default "us-west-2" "cm"
              [("replicas", JNum 2)] None [] Hn)
    as [_ [_ [Hd _]]].
  split; [apply Hs; reflexivity | split; [apply Ha; reflexivity |]].
  apply Hd; reflexivity.
Defined.

(** *** C7 *)

Lemma part000_returns_graph name user o obj :
  part000_outcome name user o [] = inr obj ->
  exists d b,
    resource_of_class K8sDeployment (part000_graph name user o []) = Some d
    /\ resource_of_class S3Bucket (part000_graph name user o []) = Some b
    /\ In (urn b) (dependsOn (opts d)).
Proof.
  destruct name as [|c n]; [discriminate|].
  unfold part000_outcome, part000_graph, Part000.ChartMuseum,
    bind, new_resource, ret, lift. simpl.
  destruct (Part000.container_env _ _ _ _) as [e | env]; simpl.
  - discriminate.
  - intros _. do 2 eexists. repeat split; simpl; auto.
Qed.

(** C7: the deployment is declared with the bucket in its [dependsOn], in
    every returning run of [src/index.ts] (its provider is then the
    supported one) and in every returning run of [src/unnamed/part_000]; in
    both the bucket is a resource declared by the same run. *)
Theorem deployment_depends_on_bucket :
  (forall provider region name user o (st : Engine) obj,
      index_outcome provider region name user o st = inr obj ->
      exists d b,
        resource_of_class K8sDeployment
          (index_graph provider region name user o st) = Some d
        /\ resource_of_class S3Bucket
             (index_graph provider region name user o st) = Some b
        /\ In (urn b) (dependsOn (opts d)))
  /\ (forall name user o (st : Engine) obj,
         part000_outcome name user o st = inr obj ->
         exists d b,
           resource_of_class K8sDeployment
             (part000_graph name user o st) = Some d
           /\ resource_of_class S3Bucket
                (part000_graph name user o st) = Some b
           /\ In (urn b) (dependsOn (opts d))).
Proof.
  split.
  - intros provider region name user o st obj Hret.
    destruct (index_returning _ _ _ _ _ _ _ Hret) as [_ (c & n & _ & -> & _)].
    do 2 eexists. repeat split; simpl; auto.
  - intros name user o st obj Hret.
    rewrite RunFacts.part000_outcome_frame in Hret.
    rewrite RunFacts.part000_graph_frame.
    eauto using part000_returns_graph.
Qed.

Lemma deployment_depends_on_bucket_defaults :
  (exists d b,
      resource_of_class K8sDeployment
        (index_graph "aws" "us-west-2" "cm" None None []) = Some d
      /\ resource_of_class S3Bucket
           (index_graph "aws" "us-west-2" "cm" None None []) = Some b
      /\ In (urn b) (dependsOn (opts d)))
  /\ (exists d b,
         resource_of_class K8sDeployment (part000_graph "cm" None None [])
         = Some d
         /\ resource_of_class S3Bucket (part000_graph "cm" None None [])
            = Some b
         /\ In (urn b) (dependsOn (opts d))).
Proof.
  destruct deployment_depends_on_bucket as [Hi Hp].
  split.
  - refine (Hi "aws" "us-west-2" "cm" None None [] _ _). reflexivity.
  - refine (Hp "cm" None None [] _ _). vm_compute. reflexivity.
Defined.

(** *** C9 *)

(** C9: a returning run of [src/index.ts] (provider ["aws"]) declares one
    user policy.  It is attached to the IAM user of the same run, and its
    document is computed from the name of the bucket of the same run: two
    [Allow] statements, [s3:ListBucket] on [arn:aws:s3:::<bucket>] and
    delete, get and put object on [arn:aws:s3:::<bucket>/*], and nothing
    else. *)
Theorem policy_is_scoped_to_bucket :
  forall provider region name user o (st : Engine) obj,
    index_outcome provider region name user o st = inr obj ->
    let g := index_graph provider region name user o st in
    exists p b u,
      resource_of_class IamUserPolicy g = Some p
      /\ resource_of_class S3Bucket g = Some b
      /\ resource_of_class IamUser g = Some u
      /\ count_class IamUserPolicy g = 1
      /\ at_path ["user"] (args p) = IOut (mkOut (urn u) ["name"])
      /\ at_path ["policy"] (args p)
         = IApply (mkOut (urn b) ["bucket"])
                  (fun bucketName =>
                     JSON_stringify (Index.policy_document bucketName))
      /\ forall bucketName,
          map statement_grant (statements (Index.policy_document bucketName))
          = [ (JStr "Allow",
               JArr [JStr "s3:ListBucket"],
               JStr ("arn:aws:s3:::" ++ bucketName));
              (JStr "Allow",
               JArr [JStr "s3:DeleteObject"; JStr "s3:GetObject";
                     JStr "s3:PutObject"],
               JStr ("arn:aws:s3:::" ++ bucketName ++ "/*")) ].
Proof.
  intros provider region name user o st obj Hret g. subst g.
  destruct (index_returning _ _ _ _ _ _ _ Hret) as [_ (c & n & _ & -> & _)].
  do 3 eexists. repeat split.
Qed.

Lemma policy_is_scoped_to_bucket_cm :
  exists p b u,
    resource_of_class IamUserPolicy
      (index_graph "aws" "us-west-2" "cm" None None []) = Some p
    /\ resource_of_class S3Bucket
         (index_graph "aws" "us-west-2" "cm" None None []) = Some b
    /\ resource_of_class IamUser
         (index_graph "aws" "us-west-2" "cm" None None []) = Some u
    /\ at_path ["user"] (args p) = IOut (mkOut (urn u) ["name"])
    /\ at_path ["policy"] (args p)
       = IApply (mkOut (urn b) ["bucket"])
                (fun bucketName =>
                   JSON_stringify (Index.policy_document bucketName)).
Proof.
  destruct (RunFacts.index_aws_returns "us-west-2" "c"%char "m" None None)
    as [obj Hobj].
  destruct (policy_is_scoped_to_bucket
              "aws" "us-west-2" "cm" None None [] obj Hobj)
    as (p & b & u & Hp & Hb & Hu & _ & Huser & Hpol & _).
  exists p, b, u. auto.
Defined.

(** *** C2 *)

(** C2, refuted: a nested object given with a key missing does not get
    that key from the defaults.  With [{service: {}}] the resolved service
    type of [src/index.ts] is not the default one, and with
    [{storage: {cloud: "google"}}] the resolved storage region of
    [src/unnamed/part_000] is not the default one. *)
Lemma nested_object_is_not_merged :
  opt_member (obj_get "service"
                (Index.resolve_args (Some [("service", JObj [])]))) "type"
  <> opt_member (obj_get "service" Index.ChartMuseumDefaults) "type"
  /\ opt_member
       (obj_get "storage"
          (Part000.resolve_args
             (Some [("storage", JObj [("cloud", JStr "google")])]))) "region"
     <> opt_member (obj_get "storage" Part000.ChartMuseumDefaults) "region".
Proof. split; vm_compute; discriminate. Qed.

(** C2, amended: the merge is one level deep.  Reading a key of the
    resolved arguments gives the user's value when the user arguments hold
    that key (a nested object is then taken whole, as the user gave it) and
    the default otherwise; without user arguments every key has its
    default. *)
Theorem resolve_args_is_shallow :
  forall (user : option JsObject) (k : string),
    obj_get k (Index.resolve_args user)
    = match user with
      | Some u => if obj_has k u then obj_get k u
                  else obj_get k Index.ChartMuseumDefaults
      | None => obj_get k Index.ChartMuseumDefaults
      end
    /\ obj_get k (Part000.resolve_args user)
       = match user with
         | Some u => if obj_has k u then obj_get k u
                     else obj_get k Part000.ChartMuseumDefaults
         | None => obj_get k Part000.ChartMuseumDefaults
         end.
Proof.
  intros. split; [apply index_resolve_get | apply part000_resolve_get].
Qed.

(** *** C1 *)

(** In [src/index.ts] the region and bucket variables are named after the
    provider identifier ["amazon"], for every run with provider ["aws"] and
    a name. *)
Lemma index_storage_names region c n user o :
  env_names (args_of_class K8sDeployment
               (index_graph "aws" region (String c n) user o []))
  = map (fun s => ILit (JStr s))
        [ "DISABLE_API"; "DISABLE_METRICS"; "LOG_JSON";
          "PROV_POST_FORM_FIELD_NAME"; "STORAGE"; "STORAGE_AMAZON_REGION";
          "STORAGE_AMAZON_BUCKET"; "AWS_ACCESS_KEY_ID";
          "AWS_SECRET_ACCESS_KEY" ]
  /\ env_lookup "STORAGE"
       (env_of (args_of_class K8sDeployment
                  (index_graph "aws" region (String c n) user o [])))
     = Some (ILit (JStr "amazon")).
Proof. split; reflexivity. Qed.

(** In [src/unnamed/part_000] the name of the region variable is built from
    the region, the name of the bucket variable from the cloud. *)
Lemma part000_storage_names (a : JsObject) (api metrics cloud region : string)
      (bucket : Ref) :
  obj_get "storage" a = JObj [("cloud", JStr cloud); ("region", JStr region)] ->
  exists env,
    Part000.container_env a api metrics bucket = inr env
    /\ map env_name env
       = map (fun s => ILit (JStr s))
             [ "DISABLE_API"; "DISABLE_METRICS"; "LOG_JSON";
               "PROV_POST_FORM_FIELD_NAME"; "STORAGE";
               "STORAGE_" ++ toUpperCase region ++ "_REGION";
               "STORAGE_" ++ toUpperCase cloud ++ "_BUCKET" ].
Proof.
  intros H. unfold Part000.container_env. rewrite H. simpl.
  eexists. split; reflexivity.
Qed.

(** C1, at the failing input: [new ChartMuseum("cm")] of
    [src/unnamed/part_000], with the default storage
    [{cloud: "amazon", region: "us-west-2"}], returns and declares a
    deployment whose [STORAGE] is ["amazon"] and whose region variable is
    called [STORAGE_US-WEST-2_REGION]; no variable is called
    [STORAGE_AMAZON_REGION]. *)
Theorem part000_region_variable_misnamed :
  (exists obj, part000_outcome "cm" None None [] = inr obj)
  /\ env_names (args_of_class K8sDeployment (part000_graph "cm" None None []))
     = map (fun s => ILit (JStr s))
           [ "DISABLE_API"; "DISABLE_METRICS"; "LOG_JSON";
             "PROV_POST_FORM_FIELD_NAME"; "STORAGE";
             "STORAGE_US-WEST-2_REGION"; "STORAGE_AMAZON_BUCKET" ]
  /\ env_lookup "STORAGE"
       (env_of (args_of_class K8sDeployment
                  (part000_graph "cm" None None [])))
     = Some (ILit (JStr "amazon"))
  /\ env_lookup "STORAGE_AMAZON_REGION"
       (env_of (args_of_class K8sDeployment
                  (part000_graph "cm" None None [])))
     = None.
Proof.
  split; [eexists; vm_compute; reflexivity|].
  repeat split; vm_compute; reflexivity.
Qed.

(** *** C4 *)

Section Ownership.

Variables (region : string) (c0 : ascii) (n0 : string)
          (user : option JsObject) (o : option ResourceOptions).

Let name : string := String c0 n0.
Let root : Ref := mkRef (Component "jaxxstorm:chartmuseum") name.
Let ns : Ref := mkRef K8sNamespace ("chartmuseum-" ++ name ++ "-namespace").
Let iam : Ref := mkRef IamUser ("chartmuseum-" ++ name ++ "-iam-user").
Let g : list Resource := index_graph "aws" region name user o [].

(** Who owns what in a run with provider ["aws"] and a name, in
    declaration order. *)
Lemma index_aws_edges :
  edges g
  = [ (root, parent (match o with Some o' => o' | None => no_opts end));
      (ns, Some root);
      (mkRef S3Bucket ("chartmuseum-" ++ name ++ "-bucket"), Some root);
      (iam, Some root);
      (mkRef IamUserPolicy ("chartmuseum-" ++ name ++ "-iam-policy"), Some iam);
      (mkRef IamAccessKey ("chartmuseum-" ++ name ++ "-iam-accesskey"),
       Some iam);
      (mkRef K8sSecret ("chartmuseum-" ++ name ++ "-secret"), Some ns);
      (mkRef K8sDeployment ("chartmuseum-" ++ name ++ "-deployment"), Some ns);
      (mkRef K8sService ("chartmuseum-" ++ name ++ "-service"), Some ns) ].
Proof. reflexivity. Qed.

Lemma owned_by_edge (c p : Ref) :
  owned_by root g c p <-> In (c, Some p) (edges g) /\ c <> root.
Proof.
  unfold owned_by, edges. rewrite in_map_iff. split.
  - intros [r [Hin [Hu [Hne Hp]]]]. split; auto.
    exists r. now rewrite Hu, Hp.
  - intros [[r [Heq Hin]] Hne]. exists r.
    injection Heq as Hu Hp. auto.
Qed.

Ltac edge_cases H :=
  rewrite index_aws_edges in H; simpl in H;
  repeat (destruct H as [H | H]); try contradiction.

Lemma owned_by_depth (c p : Ref) :
  owned_by root g c p -> depth p < depth c.
Proof.
  rewrite owned_by_edge. intros [Hin Hne].
  edge_cases Hin; injection Hin as Hc Hp; subst c; try subst p;
    try (exfalso; apply Hne; reflexivity); unfold depth; simpl; lia.
Qed.

Lemma ancestor_depth (x y : Ref) :
  clos_trans Ref (owned_by root g) x y -> depth y < depth x.
Proof.
  induction 1 as [x y H | x y z _ IH1 _ IH2].
  - now apply owned_by_depth.
  - lia.
Qed.

Lemma index_aws_acyclic (x : Ref) : ~ clos_trans Ref (owned_by root g) x x.
Proof.
  intros H. apply ancestor_depth in H. lia.
Qed.

Lemma index_aws_one_owner (c p1 p2 : Ref) :
  owned_by root g c p1 -> owned_by root g c p2 -> p1 = p2.
Proof.
  rewrite !owned_by_edge. intros [H1 Hne] [H2 _].
  edge_cases H1; edge_cases H2; unfold root, ns, iam in *; congruence.
Qed.

Lemma index_aws_rooted (r : Resource) :
  In r g -> urn r <> root -> clos_trans Ref (owned_by root g) (urn r) root.
Proof.
  intros Hin Hne.
  assert (Hns : owned_by root g ns root).
  { apply owned_by_edge. rewrite index_aws_edges.
    split; [simpl; auto | discriminate]. }
  assert (Hiam : owned_by root g iam root).
  { apply owned_by_edge. rewrite index_aws_edges.
    split; [simpl; auto 6 | discriminate]. }
  assert (He : In (urn r, parent (opts r)) (edges g)).
  { unfold edges. now apply (in_map (fun x => (urn x, parent (opts x)))). }
  assert (Hown : forall p, parent (opts r) = Some p ->
                           owned_by root g (urn r) p).
  { intros p Hp. exists r. auto. }
  edge_cases He; injection He as Hu Hp; symmetry in Hp.
  - exfalso. apply Hne. now rewrite <- Hu.
  - apply t_step. auto.
  - apply t_step. auto.
  - apply t_step. auto.
  - eapply t_trans; [apply t_step; apply (Hown _ Hp) | now apply t_step].
  - eapply t_trans; [apply t_step; apply (Hown _ Hp) | now apply t_step].
  - eapply t_trans; [apply t_step; apply (Hown _ Hp) | now apply t_step].
  - eapply t_trans; [apply t_step; apply (Hown _ Hp) | now apply t_step].
  - eapply t_trans; [apply t_step; apply (Hown _ Hp) | now apply t_step].
Qed.

Lemma index_aws_tree : ownership_tree root g.
Proof.
  constructor.
  - exact index_aws_rooted.
  - exact index_aws_acyclic.
  - exact index_aws_one_owner.
Qed.

End Ownership.

(** C4, refuted: the access key of [new ChartMuseum("cm")] with provider
    ["aws"] is declared with [{parent: iamUser}]; its owner is the IAM user,
    not the component. *)
Lemma access_key_not_owned_by_component :
  parent_of_class IamAccessKey
    (index_graph "aws" "us-west-2" "cm" None None [])
  = Some (mkRef IamUser "chartmuseum-cm-iam-user")
  /\ parent_of_class IamAccessKey
       (index_graph "aws" "us-west-2" "cm" None None [])
     <> Some (mkRef (Component "jaxxstorm:chartmuseum") "cm").
Proof. split; vm_compute; [reflexivity | discriminate]. Qed.

(** C4, amended: when the constructor of [src/index.ts] returns, the
    ownership of what it declared is a tree rooted at the component, without
    a cycle.  The deployment, the service and the secret are owned by the
    namespace; the namespace, the bucket and the IAM user are owned by the
    component; the access key and the user policy are owned by the IAM
    user. *)
Theorem ownership_is_a_tree :
  forall provider region name user o (st : Engine) obj,
    index_outcome provider region name user o st = inr obj ->
    let g := index_graph provider region name user o st in
    let root := mkRef (Component "jaxxstorm:chartmuseum") name in
    let ns := mkRef K8sNamespace ("chartmuseum-" ++ name ++ "-namespace") in
    let iam := mkRef IamUser ("chartmuseum-" ++ name ++ "-iam-user") in
    Index.this obj = root
    /\ ownership_tree root g
    /\ parent_of_class K8sDeployment g = Some ns
    /\ parent_of_class K8sService g = Some ns
    /\ parent_of_class K8sSecret g = Some ns
    /\ parent_of_class K8sNamespace g = Some root
    /\ parent_of_class S3Bucket g = Some root
    /\ parent_of_class IamUser g = Some root
    /\ parent_of_class IamAccessKey g = Some iam
    /\ parent_of_class IamUserPolicy g = Some iam.
Proof.
  intros provider region name user o st obj Hret g root ns iam.
  subst g root ns iam.
  destruct (index_returning _ _ _ _ _ _ _ Hret)
    as [_ (c & n & -> & -> & Hobj)].
  split; [unfold index_outcome in Hobj; simpl in Hobj;
          injection Hobj as <-; reflexivity|].
  split; [apply index_aws_tree|].
  repeat split.
Qed.

Lemma ownership_is_a_tree_cm :
  ownership_tree (mkRef (Component "jaxxstorm:chartmuseum") "cm")
                 (index_graph "aws" "us-west-2" "cm" None None [])
  /\ parent_of_class IamAccessKey
       (index_graph "aws" "us-west-2" "cm" None None [])
     = Some (mkRef IamUser "chartmuseum-cm-iam-user").
Proof.
  destruct (RunFacts.index_aws_returns "us-west-2" "c"%char "m" None None)
    as [obj Hobj].
  pose proof (ownership_is_a_tree
                "aws" "us-west-2" "cm" None None [] obj Hobj) as H.
  simpl in H. destruct H as (_ & Ht & _ & _ & _ & _ & _ & _ & Hk & _).
  split; [exact Ht | exact Hk].
Defined.

(** ** Further properties of the argument merge *)

Module SpreadFacts.
Import Js Scope.

Lemma obj_has_In (k : string) (o : JsObject) :
  obj_has k o = true <-> In k (keys o).
Proof.
  induction o as [|[k' v] rest IH]; simpl.
  - split; [discriminate | tauto].
  - destruct (String.eqb k k') eqn:E.
    + apply String.eqb_eq in E. subst. tauto.
    + apply String.eqb_neq in E. rewrite IH. split; [tauto|].
      intros [H | H]; [congruence | exact H].
Qed.

Lemma obj_get_absent (k : string) (o : JsObject) :
  obj_has k o = false -> obj_get k o = JUndefined.
Proof.
  induction o as [|[k' v] rest IH]; simpl; auto.
  destruct (String.eqb k k'); [discriminate | exact IH].
Qed.

Lemma keys_obj_set (k : string) (v : JsValue) (o : JsObject) :
  keys (obj_set k v o) = if obj_has k o then keys o else (keys o ++ [k])%list.
Proof.
  induction o as [|[k' v'] rest IH]; simpl; auto.
  destruct (String.eqb k k') eqn:E; simpl; auto.
  rewrite IH. now destruct (obj_has k rest).
Qed.

Lemma obj_has_set (k' k : string) (v : JsValue) (o : JsObject) :
  obj_has k' (obj_set k v o) = orb (obj_has k' o) (String.eqb k' k).
Proof.
  induction o as [|[k0 v0] rest IH]; simpl.
  - now destruct (String.eqb k' k).
  - destruct (String.eqb k k0) eqn:E; simpl.
    + destruct (String.eqb k' k0) eqn:E'; auto.
      apply String.eqb_eq in E. subst k0. rewrite E'. now rewrite orb_false_r.
    + destruct (String.eqb k' k0); auto.
Qed.

Lemma own_keys_In (k : string) (o : JsObject) :
  In k (own_keys o) <-> In k (keys o).
Proof.
  rewrite <- obj_has_In, <- JsFacts.own_keys_has.
  rewrite existsb_exists. split.
  - intros H. exists k. split; auto. apply String.eqb_refl.
  - intros [x [Hx E]]. apply String.eqb_eq in E. now subst.
Qed.

Lemma own_keys_NoDup (o : JsObject) : NoDup (own_keys o).
Proof.
  induction o as [|[k v] rest IH]; simpl; constructor.
  - rewrite filter_In. intros [_ H]. now rewrite String.eqb_refl in H.
  - now apply NoDup_filter.
Qed.

(** On an object without repeated keys the own keys are the stored ones. *)
Lemma own_keys_keys (o : JsObject) : NoDup (keys o) -> own_keys o = keys o.
Proof.
  induction o as [|[k v] rest IH]; simpl; auto.
  intros H. inversion H as [|? ? Hnin Hnd]; subst.
  rewrite IH by assumption. f_equal.
  apply forallb_filter_id. apply forallb_forall. intros x Hx.
  apply negb_true_iff, String.eqb_neq. intros ->. contradiction.
Qed.

Lemma keys_fold (f : string -> JsValue) (ks : list string) :
  NoDup ks ->
  forall t : JsObject,
    keys (fold_left (fun t k => obj_set k (f k) t) ks t)
    = (keys t ++ filter (fun k => negb (obj_has k t)) ks)%list.
Proof.
  induction ks as [|k ks IH]; intros Hnd t; simpl.
  - now rewrite app_nil_r.
  - inversion Hnd as [|? ? Hnin Hnd']; subst.
    rewrite IH by assumption. rewrite keys_obj_set.
    assert (Hf : filter (fun k' => negb (obj_has k' (obj_set k (f k) t))) ks
                 = filter (fun k' => negb (obj_has k' t)) ks).
    { apply filter_ext_in. intros k' Hin. rewrite obj_has_set.
      assert (E : String.eqb k' k = false).
      { apply String.eqb_neq. intros ->. contradiction. }
      rewrite E. now rewrite orb_false_r. }
    rewrite Hf. destruct (obj_has k t); simpl; auto.
    now rewrite <- app_assoc.
Qed.

(** The keys after [{...target, ...source}]: those of the target, then the
    source's keys the target lacks, in the source's order. *)
Lemma keys_spread_into (target source : JsObject) :
  keys (spread_into target source)
  = (keys target
     ++ filter (fun k => negb (obj_has k target)) (own_keys source))%list.
Proof.
  unfold spread_into. apply keys_fold. apply own_keys_NoDup.
Qed.

Lemma NoDup_keys_spread_into (target source : JsObject) :
  NoDup (keys target) -> NoDup (keys (spread_into target source)).
Proof.
  intros H. rewrite keys_spread_into.
  apply NoDup_app; auto.
  - apply NoDup_filter, own_keys_NoDup.
  - intros k Hin Hin'. apply filter_In in Hin'. destruct Hin' as [_ Hn].
    apply obj_has_In in Hin. rewrite Hin in Hn. discriminate.
Qed.

Lemma obj_has_spread_into (target source : JsObject) (k : string) :
  obj_has k (spread_into target source)
  = orb (obj_has k target) (obj_has k source).
Proof.
  destruct (obj_has k (spread_into target source)) eqn:E.
  - apply obj_has_In in E. rewrite keys_spread_into in E.
    apply in_app_or in E. destruct E as [E | E].
    + apply obj_has_In in E. now rewrite E.
    + apply filter_In in E. destruct E as [E _].
      apply own_keys_In, obj_has_In in E. rewrite E. now rewrite orb_true_r.
  - symmetry. apply orb_false_iff. split.
    + destruct (obj_has k target) eqn:E'; auto.
      apply obj_has_In in E'. rewrite <- E. symmetry. apply obj_has_In.
      rewrite keys_spread_into. apply in_or_app. now left.
    + destruct (obj_has k source) eqn:E'; auto.
      rewrite <- E. symmetry. apply obj_has_In. rewrite keys_spread_into.
      apply in_or_app.
      destruct (obj_has k target) eqn:Et.
      * left. now apply obj_has_In.
      * right. apply filter_In. split.
        -- now apply own_keys_In, obj_has_In.
        -- now rewrite Et.
Qed.

(** Two objects without repeated keys that store the same keys in the same
    order and answer every read alike are the same object. *)
Lemma obj_ext (a b : JsObject) :
  keys a = keys b -> NoDup (keys a) ->
  (forall k, obj_get k a = obj_get k b) -> a = b.
Proof.
  revert b. induction a as [|[k v] a IH]; intros [|[k' v'] b] Hk Hnd Hget;
    simpl in Hk; try discriminate; auto.
  injection Hk as Hk1 Hk2. subst k'.
  inversion Hnd as [|? ? Hnin Hnd']; subst.
  assert (Hv : v = v').
  { specialize (Hget k). simpl in Hget. now rewrite String.eqb_refl in Hget. }
  subst v'. f_equal. apply IH; auto.
  intros k0. destruct (String.eqb k0 k) eqn:E.
  - apply String.eqb_eq in E. subst k0.
    rewrite !obj_get_absent; auto.
    + destruct (obj_has k b) eqn:Hb; auto.
      apply obj_has_In in Hb. rewrite <- Hk2 in Hb. contradiction.
    + destruct (obj_has k a) eqn:Ha; auto.
      apply obj_has_In in Ha. contradiction.
  - specialize (Hget k0). simpl in Hget. now rewrite E in Hget.
Qed.

Lemma filter_none (f : string -> bool) (l : list string) :
  (forall x, In x l -> f x = false) -> filter f l = [].
Proof.
  induction l as [|x l IH]; simpl; auto.
  intros H. rewrite (H x) by auto. apply IH. auto.
Qed.

Lemma filter_twice (f : string -> bool) (l : list string) :
  filter f (filter f l) = filter f l.
Proof.
  induction l as [|x l IH]; simpl; auto.
  destruct (f x) eqn:E; simpl; rewrite ?E, IH; auto.
Qed.

(** Spreading a merged object over the same target changes nothing. *)
Lemma spread_into_idempotent (target source : JsObject) :
  NoDup (keys target) ->
  spread_into target (spread_into target source) = spread_into target source.
Proof.
  intros Hnd.
  pose proof (NoDup_keys_spread_into target source Hnd) as HndR.
  apply obj_ext.
  - rewrite (keys_spread_into target (spread_into target source)).
    rewrite own_keys_keys by assumption.
    rewrite keys_spread_into at 1 2. f_equal.
    rewrite filter_app, filter_twice.
    rewrite filter_none; auto.
    intros x Hx. apply obj_has_In in Hx. now rewrite Hx.
  - now apply NoDup_keys_spread_into.
  - intros k. rewrite JsFacts.obj_get_spread_into.
    destruct (obj_has k (spread_into target source)) eqn:E; auto.
    rewrite obj_has_spread_into in E. apply orb_false_iff in E.
    destruct E as [Et Es].
    rewrite JsFacts.obj_get_spread_into, Es. reflexivity.
Qed.

End SpreadFacts.

(** ** Further properties of the two constructors *)

Import Scope.

(** *** Arguments *)

Lemma index_defaults_spread : spread_into [] Index.ChartMuseumDefaults
                              = Index.ChartMuseumDefaults.
Proof. reflexivity. Qed.

Lemma part000_defaults_spread : spread_into [] Part000.ChartMuseumDefaults
                                = Part000.ChartMuseumDefaults.
Proof. reflexivity. Qed.

Lemma index_defaults_NoDup : NoDup (keys Index.ChartMuseumDefaults).
Proof.
  repeat constructor; simpl; intuition discriminate.
Qed.

Lemma part000_defaults_NoDup : NoDup (keys Part000.ChartMuseumDefaults).
Proof.
  repeat constructor; simpl; intuition discriminate.
Qed.

(** X1: when no key of the user arguments is written with digits only
    (JavaScript lists array-index keys before all others), the resolved
    arguments list the default keys first, in the order of the defaults,
    then the keys only the user gave, in the user's order, and hold no key
    twice.  In particular every default key is present whatever the user
    passed, and keys the interface does not know are kept. *)
Theorem resolve_args_keys :
  forall user : option JsObject,
    (forall u k, user = Some u -> In k (keys u) -> digits_only k = false) ->
    keys (Index.resolve_args user)
    = (["namespace"; "replicas"; "service"; "api"; "metrics"]
       ++ match user with
          | Some u => filter (fun k => negb (obj_has k Index.ChartMuseumDefaults))
                             (own_keys u)
          | None => []
          end)%list
    /\ NoDup (keys (Index.resolve_args user))
    /\ keys (Part000.resolve_args user)
       = (["namespace"; "replicas"; "service"; "api"; "metrics"; "storage"]
          ++ match user with
             | Some u =>
                 filter (fun k => negb (obj_has k Part000.ChartMuseumDefaults))
                        (own_keys u)
             | None => []
             end)%list
    /\ NoDup (keys (Part000.resolve_args user)).
Proof.
  intros user _. unfold Index.resolve_args, Part000.resolve_args.
  rewrite index_defaults_spread, part000_defaults_spread.
  destruct user as [u|]; simpl spread_opt.
  - rewrite !SpreadFacts.keys_spread_into.
    repeat split; auto.
    + rewrite <- SpreadFacts.keys_spread_into.
      apply SpreadFacts.NoDup_keys_spread_into, index_defaults_NoDup.
    + rewrite <- SpreadFacts.keys_spread_into.
      apply SpreadFacts.NoDup_keys_spread_into, part000_defaults_NoDup.
  - repeat split; auto using index_defaults_NoDup, part000_defaults_NoDup.
Qed.

Lemma resolve_args_keys_example :
  keys (Index.resolve_args
          (Some [("zeta", JNum 1); ("api", JBool true); ("alpha", JNum 2)]))
  = ["namespace"; "replicas"; "service"; "api"; "metrics"; "zeta"; "alpha"].
Proof.
  refine (proj1 (resolve_args_keys
                   (Some [("zeta", JNum 1); ("api", JBool true);
                          ("alpha", JNum 2)]) _)).
  intros u k Hu Hk. injection Hu as <-. simpl in Hk.
  repeat (destruct Hk as [<- | Hk]; [reflexivity|]). contradiction.
Defined.

(** X2: resolving is idempotent.  Passing the resolved arguments of one
    component as the user arguments of another resolves to the same
    object. *)
Theorem resolve_args_idempotent :
  forall user : option JsObject,
    Index.resolve_args (Some (Index.resolve_args user))
    = Index.resolve_args user
    /\ Part000.resolve_args (Some (Part000.resolve_args user))
       = Part000.resolve_args user.
Proof.
  intros user. unfold Index.resolve_args, Part000.resolve_args.
  rewrite index_defaults_spread, part000_defaults_spread.
  destruct user as [u|]; simpl spread_opt; split.
  - apply SpreadFacts.spread_into_idempotent, index_defaults_NoDup.
  - apply SpreadFacts.spread_into_idempotent, part000_defaults_NoDup.
  - reflexivity.
  - reflexivity.
Qed.

(** X3: in a returning run of [src/index.ts] the user's [namespace],
    [replicas] and service type reach the declared resources as given,
    without any check of their type or range; a key the user did not give
    takes its default.  The namespace is named by [namespace], the deployment
    gets [replicas], the service gets the [type] of the user's [service]
    value. *)
Theorem user_values_pass_unchecked :
  forall provider region name (u : JsObject) o (st : Engine) obj,
    index_outcome provider region name (Some u) o st = inr obj ->
    let g := index_graph provider region name (Some u) o st in
    at_path ["metadata"; "name"] (args_of_class K8sNamespace g)
    = ILit (if obj_has "namespace" u then obj_get "namespace" u
            else JStr "chartmuseum")
    /\ at_path ["spec"; "replicas"] (args_of_class K8sDeployment g)
       = ILit (if obj_has "replicas" u then obj_get "replicas" u else JNum 1)
    /\ at_path ["spec"; "type"] (args_of_class K8sService g)
       = ILit (if obj_has "service" u
               then opt_member (obj_get "service" u) "type"
               else JStr "ClusterIP").
Proof.
  intros provider region name u o st obj Hret g. subst g.
  destruct (index_returning _ _ _ _ _ _ _ Hret) as [_ (c & n & _ & -> & _)].
  assert (Hn : at_path ["metadata"; "name"]
                 (args_of_class K8sNamespace
                    (index_graph "aws" region (String c n) (Some u) o []))
               = ILit (obj_get "namespace" (Index.resolve_args (Some u))))
    by reflexivity.
  assert (Hr : at_path ["spec"; "replicas"]
                 (args_of_class K8sDeployment
                    (index_graph "aws" region (String c n) (Some u) o []))
               = ILit (obj_get "replicas" (Index.resolve_args (Some u))))
    by reflexivity.
  rewrite Hn, Hr, index_service_type, !index_resolve_get.
  repeat split.
  now destruct (obj_has "service" u).
Qed.

Lemma user_values_pass_unchecked_example :
  at_path ["spec"; "replicas"]
    (args_of_class K8sDeployment
       (index_graph "aws" "us-west-2" "cm"
          (Some [("replicas", JNum (-1))]) None []))
  = ILit (JNum (-1)).
Proof.
  refine (proj1 (proj2 (user_values_pass_unchecked
                          "aws" "us-west-2" "cm" [("replicas", JNum (-1))]
                          None [] _ _))).
  reflexivity.
Defined.

(** X4: in a returning run of [src/index.ts] the two DISABLE variables
    follow JavaScript truthiness, not only booleans: [DISABLE_API] is
    ["false"] exactly when the resolved [api] value is truthy, and ["true"]
    exactly when it is falsy ([false], [undefined], [null], [0] or the empty
    string); likewise [DISABLE_METRICS] for [metrics]. *)
Theorem disable_flags_follow_truthiness :
  forall provider region name user o (st : Engine) obj,
    index_outcome provider region name user o st = inr obj ->
    let env := env_of (args_of_class K8sDeployment
                         (index_graph provider region name user o st)) in
    (env_lookup "DISABLE_API" env = Some (ILit (JStr "false"))
     <-> to_boolean (obj_get "api" (Index.resolve_args user)) = true)
    /\ (env_lookup "DISABLE_API" env = Some (ILit (JStr "true"))
        <-> to_boolean (obj_get "api" (Index.resolve_args user)) = false)
    /\ (env_lookup "DISABLE_METRICS" env = Some (ILit (JStr "false"))
        <-> to_boolean (obj_get "metrics" (Index.resolve_args user)) = true)
    /\ (env_lookup "DISABLE_METRICS" env = Some (ILit (JStr "true"))
        <-> to_boolean (obj_get "metrics" (Index.resolve_args user)) = false).
Proof.
  intros provider region name user o st obj Hret env. subst env.
  destruct (index_returning _ _ _ _ _ _ _ Hret) as [_ (c & n & _ & -> & _)].
  rewrite index_disable_api, index_disable_metrics. unfold js_not.
  destruct (to_boolean (obj_get "api" (Index.resolve_args user)));
    destruct (to_boolean (obj_get "metrics" (Index.resolve_args user)));
    simpl; repeat split; intros H; try reflexivity; discriminate H.
Qed.

Lemma disable_flags_follow_truthiness_null :
  env_lookup "DISABLE_API"
    (env_of (args_of_class K8sDeployment
               (index_graph "aws" "us-west-2" "cm"
                  (Some [("api", JNull)]) None [])))
  = Some (ILit (JStr "true")).
Proof.
  refine (proj2 (proj1 (proj2 (disable_flags_follow_truthiness
                                 "aws" "us-west-2" "cm"
                                 (Some [("api", JNull)]) None [] _ _))) _).
  - reflexivity.
  - reflexivity.
Defined.

(** *** When the constructors return *)

(** X5: the constructor of [src/index.ts] returns exactly when the
    configured provider is the string ["aws"] and the name is not empty;
    then it returns for every user arguments and every options.  The
    comparison of the provider is exact: not ["AWS"], and not the identifier
    ["amazon"] the component reports.  With an empty name the SDK throws a
    [ResourceError] and nothing is declared. *)
Theorem index_returns_iff_aws :
  forall provider region name user o (st : Engine),
    ((exists obj, index_outcome provider region name user o st = inr obj)
     <-> provider = "aws" /\ name <> EmptyString)
    /\ (name = EmptyString ->
        index_outcome provider region name user o st = inl ResourceError
        /\ index_graph provider region name user o st = []).
Proof.
  intros. rewrite RunFacts.index_outcome_frame, RunFacts.index_graph_frame.
  split; [split|].
  - intros [obj H].
    destruct (RunFacts.index_returns_aws _ _ _ _ _ _ H) as [-> (c & n & ->)].
    split; [reflexivity | discriminate].
  - intros [-> Hn]. destruct (RunFacts.nonempty_name name Hn) as (c & n & ->).
    apply RunFacts.index_aws_returns.
  - intros ->. apply RunFacts.index_empty_name.
Qed.

Lemma index_rejects_amazon_and_upper_case :
  ~ (exists obj, index_outcome "amazon" "us-west-2" "cm" None None [] = inr obj)
  /\ ~ (exists obj, index_outcome "AWS" "us-west-2" "cm" None None [] = inr obj)
  /\ index_outcome "aws" "us-west-2" EmptyString None None []
     = inl ResourceError.
Proof.
  split; [|split].
  - intros H.
    apply (proj1 (proj1 (index_returns_iff_aws
                           _ "us-west-2" "cm" None None []))) in H.
    destruct H as [H _]. discriminate H.
  - intros H.
    apply (proj1 (proj1 (index_returns_iff_aws
                           _ "us-west-2" "cm" None None []))) in H.
    destruct H as [H _]. discriminate H.
  - apply (proj2 (index_returns_iff_aws
                    "aws" "us-west-2" EmptyString None None [])).
    reflexivity.
Defined.

(** What the [env] literal of [src/unnamed/part_000] evaluates to when the
    storage object holds two strings. *)
Lemma part000_env_shape (a : JsObject) (api metrics : string) (bucket : Ref)
      (so : JsObject) (cloud region : string) :
  obj_get "storage" a = JObj so ->
  obj_get "cloud" so = JStr cloud ->
  obj_get "region" so = JStr region ->
  Part000.container_env a api metrics bucket
  = inr [ Part000.env_value "DISABLE_API" (ILit (JStr api));
          Part000.env_value "DISABLE_METRICS" (ILit (JStr metrics));
          Part000.env_value "LOG_JSON" (ILit (JStr "true"));
          Part000.env_value "PROV_POST_FORM_FIELD_NAME" (ILit (JStr "prov"));
          Part000.env_value "STORAGE" (ILit (JStr cloud));
          Part000.env_value ("STORAGE_" ++ toUpperCase region ++ "_REGION")
                            (ILit (JStr region));
          Part000.env_value ("STORAGE_" ++ toUpperCase cloud ++ "_BUCKET")
                            (IOut (mkOut bucket ["bucket"])) ].
Proof.
  intros Hs Hc Hr. unfold Part000.container_env, Part000.bind_err, member.
  rewrite Hs, Hc, Hr. reflexivity.
Qed.

Lemma part000_env_returns_iff (a : JsObject) (api metrics : string)
      (bucket : Ref) :
  (exists env, Part000.container_env a api metrics bucket = inr env)
  <-> exists so cloud region,
      obj_get "storage" a = JObj so
      /\ obj_get "cloud" so = JStr cloud
      /\ obj_get "region" so = JStr region.
Proof.
  split.
  - intros [env H]. revert H.
    unfold Part000.container_env, Part000.bind_err, member, call_toUpperCase.
    destruct (obj_get "storage" a) as [| | | | |items|so] eqn:Hs;
      try discriminate.
    destruct (obj_get "region" so) as [| | | |region| |] eqn:Hr;
      try discriminate.
    destruct (obj_get "cloud" so) as [| | | |cloud| |] eqn:Hc;
      try discriminate.
    intros _. exists so, cloud, region. auto.
  - intros (so & cloud & region & Hs & Hc & Hr). eexists.
    eapply part000_env_shape; eauto.
Qed.

Lemma part000_env_error (a : JsObject) (api metrics : string) (bucket : Ref)
      (e : Error) :
  Part000.container_env a api metrics bucket = inl e -> e = TypeError.
Proof.
  unfold Part000.container_env, Part000.bind_err, member, call_toUpperCase.
  destruct (obj_get "storage" a) as [| | | | |items|so]; simpl;
    try (intros H; injection H as <-; reflexivity).
  destruct (obj_get "region" so); simpl;
    try (intros H; injection H as <-; reflexivity);
  destruct (obj_get "cloud" so); simpl;
    try (intros H; injection H as <-; reflexivity); discriminate.
Qed.

(** How a run of [src/unnamed/part_000] with a name ends, by the value of
    the [env] literal. *)
Lemma part000_run_by_env c n user o :
  let name := String c n in
  let a := Part000.resolve_args user in
  let bucket := mkRef S3Bucket (name ++ "-bucket") in
  match Part000.container_env a
          (String_of_bool (js_not (obj_get "api" a)))
          (String_of_bool (js_not (obj_get "metrics" a))) bucket with
  | inl e =>
      part000_outcome name user o [] = inl e
      /\ urns (part000_graph name user o []) = firstn 3 (part000_urns name)
  | inr env =>
      (exists obj, part000_outcome name user o [] = inr obj)
      /\ urns (part000_graph name user o []) = part000_urns name
      /\ env_of (args_of_class K8sDeployment (part000_graph name user o []))
         = env
  end.
Proof.
  intros name a bucket. subst name a bucket.
  unfold part000_outcome, part000_graph, Part000.ChartMuseum, bind,
    new_resource, ret, lift. simpl.
  destruct (Part000.container_env _ _ _ _) as [e | env]; simpl.
  - split; reflexivity.
  - split; [eexists; reflexivity | split; reflexivity].
Qed.

Lemma part000_returns_iff_env name user o :
  (exists obj, part000_outcome name user o [] = inr obj)
  <-> name <> EmptyString
      /\ exists so cloud region,
          obj_get "storage" (Part000.resolve_args user) = JObj so
          /\ obj_get "cloud" so = JStr cloud
          /\ obj_get "region" so = JStr region.
Proof.
  destruct name as [|c n].
  - split; [intros [obj H]; discriminate H | intros [H _]; congruence].
  - rewrite <- (part000_env_returns_iff (Part000.resolve_args user)
                  (String_of_bool
                     (js_not (obj_get "api" (Part000.resolve_args user))))
                  (String_of_bool
                     (js_not (obj_get "metrics" (Part000.resolve_args user))))
                  (mkRef S3Bucket (String c n ++ "-bucket"))).
    pose proof (part000_run_by_env c n user o) as H. simpl in H.
    simpl.
    destruct (Part000.container_env _ _ _ _) as [e | env].
    + destruct H as [H _]. split.
      * intros [obj Hobj]. rewrite H in Hobj. discriminate.
      * intros [_ [env Henv]]. discriminate.
    + destruct H as [H _]. split; [split; [discriminate | eauto] | auto].
Qed.

(** X6: the constructor of [src/unnamed/part_000] returns exactly when the
    name is not empty and the resolved [storage] is an object whose [cloud]
    and [region] are both strings.  A [storage] that is [undefined], [null],
    not an object, or an object lacking one of the two strings makes it
    throw, and so does an empty name. *)
Theorem part000_returns_iff_storage_strings :
  forall name user o (st : Engine),
    (exists obj, part000_outcome name user o st = inr obj)
    <-> name <> EmptyString
        /\ exists so cloud region,
            obj_get "storage" (Part000.resolve_args user) = JObj so
            /\ obj_get "cloud" so = JStr cloud
            /\ obj_get "region" so = JStr region.
Proof.
  intros name user o st. rewrite RunFacts.part000_outcome_frame.
  apply part000_returns_iff_env.
Qed.

Lemma part000_storage_examples :
  (exists obj, part000_outcome "cm" None None [] = inr obj)
  /\ ~ (exists obj,
           part000_outcome "cm" (Some [("storage", JUndefined)]) None []
           = inr obj)
  /\ ~ (exists obj,
           part000_outcome "cm"
             (Some [("storage", JObj [("cloud", JStr "amazon")])]) None []
           = inr obj)
  /\ ~ (exists obj, part000_outcome EmptyString None None [] = inr obj).
Proof.
  split; [|split; [|split]].
  - apply (proj2 (part000_returns_iff_storage_strings "cm" None None [])).
    split; [discriminate|].
    exists [("cloud", JStr "amazon"); ("region", JStr "us-west-2")],
           "amazon", "us-west-2".
    repeat split.
  - intros H.
    apply (proj1 (part000_returns_iff_storage_strings "cm" _ None [])) in H.
    destruct H as (_ & so & c & r & Hs & _). vm_compute in Hs. discriminate.
  - intros H.
    apply (proj1 (part000_returns_iff_storage_strings "cm" _ None [])) in H.
    destruct H as (_ & so & c & r & Hs & _ & Hr). vm_compute in Hs.
    injection Hs as <-. vm_compute in Hr. discriminate.
  - intros H.
    apply (proj1 (part000_returns_iff_storage_strings
                    EmptyString None None [])) in H.
    destruct H as [H _]. now apply H.
Defined.

(** X7: when the constructor of [src/unnamed/part_000] throws, either the
    name is empty, the error is the SDK's [ResourceError] and nothing is
    declared, or the error is a [TypeError] raised while the deployment's
    arguments are evaluated: the component, the bucket and the namespace are
    then already declared, the deployment and the service are not. *)
Theorem part000_failure_is_partial :
  forall name user o (st : Engine) (e : Error),
    part000_outcome name user o st = inl e ->
    (name = EmptyString /\ e = ResourceError
     /\ part000_graph name user o st = [])
    \/ (name <> EmptyString /\ e = TypeError
        /\ urns (part000_graph name user o st)
           = [ mkRef (Component "jaxxstorm:chartmuseum") name;
               mkRef S3Bucket (name ++ "-bucket");
               mkRef K8sNamespace (name ++ "-namespace") ]).
Proof.
  intros name user o st e.
  rewrite RunFacts.part000_outcome_frame, RunFacts.part000_graph_frame.
  destruct name as [|c n].
  - intros H. left. injection H as <-. repeat split.
  - right. split; [discriminate|].
    pose proof (part000_run_by_env c n user o) as Hrun. simpl in Hrun.
    revert H. simpl.
    destruct (Part000.container_env _ _ _ _) as [e' | env] eqn:E.
    + destruct Hrun as [Hrun Hu]. rewrite Hrun. intros He. injection He as <-.
      split; [eapply part000_env_error; eauto | exact Hu].
    + destruct Hrun as [[obj Hrun] _]. rewrite Hrun. discriminate.
Qed.

Lemma part000_failure_storage_undefined :
  ("cm" = EmptyString /\ TypeError = ResourceError
   /\ part000_graph "cm" (Some [("storage", JUndefined)]) None [] = [])
  \/ ("cm" <> EmptyString /\ TypeError = TypeError
      /\ urns (part000_graph "cm" (Some [("storage", JUndefined)]) None [])
         = [ mkRef (Component "jaxxstorm:chartmuseum") "cm";
             mkRef S3Bucket ("cm" ++ "-bucket");
             mkRef K8sNamespace ("cm" ++ "-namespace") ]).
Proof.
  apply (part000_failure_is_partial
           "cm" (Some [("storage", JUndefined)]) None [] TypeError).
  vm_compute. reflexivity.
Defined.

(** *** References inside the declared graph *)

Ltac in_seen H :=
  simpl in H; repeat (destruct H as [H | H]); try contradiction;
  subst; simpl; auto 12.

(** X8: whatever the provider, every resource [src/index.ts] declares
    after the component mentions, as parent, in [dependsOn] and through the
    outputs in its arguments, only the component or resources declared
    before it in the same run: nothing is used before it is declared and no
    reference dangles.  With an empty name nothing is declared at all; with
    a name the component is declared first. *)
Theorem index_graph_scoped :
  forall provider region name user o (st : Engine),
    (name = EmptyString -> index_graph provider region name user o st = [])
    /\ (name <> EmptyString ->
        exists c rest,
          index_graph provider region name user o st = c :: rest
          /\ urn c = mkRef (Component "jaxxstorm:chartmuseum") name
          /\ scoped [urn c] rest).
Proof.
  intros. rewrite RunFacts.index_graph_frame. split.
  - intros ->. reflexivity.
  - intros Hn. destruct (RunFacts.nonempty_name name Hn) as (c & n & ->).
    unfold index_graph, Index.ChartMuseum, Index.provision, bind,
      new_resource, ret, throw.
    destruct (String.eqb provider "aws"); simpl;
      do 2 eexists; (split; [reflexivity|]); (split; [reflexivity|]);
      simpl; repeat split; intros x Hx; in_seen Hx.
Qed.

Lemma index_graph_scoped_cm :
  exists c rest,
    index_graph "aws" "us-west-2" "cm" None None [] = c :: rest
    /\ urn c = mkRef (Component "jaxxstorm:chartmuseum") "cm"
    /\ scoped [urn c] rest.
Proof.
  apply (proj2 (index_graph_scoped "aws" "us-west-2" "cm" None None [])).
  discriminate.
Defined.

(** X9: the same holds for [src/unnamed/part_000], whether the run returns
    or throws. *)
Theorem part000_graph_scoped :
  forall name user o (st : Engine),
    (name = EmptyString -> part000_graph name user o st = [])
    /\ (name <> EmptyString ->
        exists c rest,
          part000_graph name user o st = c :: rest
          /\ urn c = mkRef (Component "jaxxstorm:chartmuseum") name
          /\ scoped [urn c] rest).
Proof.
  intros. rewrite RunFacts.part000_graph_frame. split.
  - intros ->. reflexivity.
  - intros Hn. destruct (RunFacts.nonempty_name name Hn) as (c & n & ->).
    unfold part000_outcome, part000_graph, Part000.ChartMuseum, bind,
      new_resource, ret, lift. simpl.
    destruct (Part000.container_env _ _ _ _) as [e | env] eqn:E; simpl.
    + do 2 eexists. (split; [reflexivity|]); (split; [reflexivity|]).
      simpl; repeat split; intros x Hx; in_seen Hx.
    + assert (Henv : forall x, In x (flat_map input_refs env) ->
                               x = mkRef S3Bucket (String c n ++ "-bucket")).
      { destruct (proj1 (part000_env_returns_iff _ _ _ _) (ex_intro _ env E))
          as (so & cloud & region & Hs & Hc & Hr).
        rewrite (part000_env_shape _ _ _ _ so cloud region Hs Hc Hr) in E.
        injection E as <-. simpl. intros x [Hx | []]. now subst. }
      do 2 eexists. (split; [reflexivity|]); (split; [reflexivity|]).
      simpl; repeat split; intros x Hx.
      * in_seen Hx.
      * in_seen Hx.
      * unfold resource_refs in Hx. simpl in Hx.
        rewrite !app_nil_r in Hx.
        destruct Hx as [Hx | [Hx | [Hx | Hx]]]; subst; simpl; auto.
        apply Henv in Hx. subst. simpl. auto.
      * in_seen Hx.
Qed.

Lemma part000_graph_scoped_cm :
  exists c rest,
    part000_graph "cm" None None [] = c :: rest
    /\ urn c = mkRef (Component "jaxxstorm:chartmuseum") "cm"
    /\ scoped [urn c] rest.
Proof.
  apply (proj2 (part000_graph_scoped "cm" None None [])).
  discriminate.
Defined.

Lemma index_env region c n user o :
  env_of (args_of_class K8sDeployment
            (index_graph "aws" region (String c n) user o []))
  = Index.container_env
      (String_of_bool (js_not (obj_get "api" (Index.resolve_args user))))
      (String_of_bool (js_not (obj_get "metrics" (Index.resolve_args user))))
      "amazon" region
      (mkRef S3Bucket ("chartmuseum-" ++ String c n ++ "-bucket"))
      (mkRef K8sSecret ("chartmuseum-" ++ String c n ++ "-secret")).
Proof. reflexivity. Qed.

(** X10: in a returning run of [src/index.ts] every entry of the
    container's [env] is either a plain variable with a value, or one of the
    two credentials, which carry no literal value and are read from the
    secret declared by the same run, under a key that this secret's [data]
    defines. *)
Theorem index_env_secret_refs_resolve :
  forall provider region name user o (st : Engine) obj,
    index_outcome provider region name user o st = inr obj ->
    let g := index_graph provider region name user o st in
    exists s,
      resource_of_class K8sSecret g = Some s
      /\ prop_keys (at_path ["data"] (args s))
         = ["AWS_ACCESS_KEY_ID"; "AWS_SECRET_ACCESS_KEY"]
      /\ Forall (env_entry_ok (urn s) (at_path ["data"] (args s)))
                (env_of (args_of_class K8sDeployment g)).
Proof.
  intros provider region name user o st obj Hret g. subst g.
  destruct (index_returning _ _ _ _ _ _ _ Hret) as [_ (c & n & _ & -> & _)].
  eexists. split; [reflexivity|]. split; [reflexivity|].
  rewrite index_env. unfold Index.container_env.
  repeat apply Forall_cons; try apply Forall_nil; unfold env_entry_ok;
    first [ left; split; [reflexivity | discriminate]
          | right; split; [reflexivity|]; split; [reflexivity|];
            eexists; split; [reflexivity | simpl; auto] ].
Qed.

Lemma index_env_secret_refs_cm :
  exists s,
    resource_of_class K8sSecret
      (index_graph "aws" "us-west-2" "cm" None None []) = Some s
    /\ prop_keys (at_path ["data"] (args s))
       = ["AWS_ACCESS_KEY_ID"; "AWS_SECRET_ACCESS_KEY"]
    /\ Forall (env_entry_ok (urn s) (at_path ["data"] (args s)))
              (env_of (args_of_class K8sDeployment
                         (index_graph "aws" "us-west-2" "cm" None None []))).
Proof.
  refine (index_env_secret_refs_resolve
            "aws" "us-west-2" "cm" None None [] _ _).
  reflexivity.
Defined.

(** *** Names of the environment variables *)

Lemma last_char_app (a b : string) :
  b <> EmptyString -> last_char (a ++ b) = last_char b.
Proof.
  intros Hb. induction a as [|c a IH]; simpl; auto.
  destruct (a ++ b) eqn:E; auto.
  destruct a; simpl in E; [contradiction | discriminate].
Qed.

Lemma region_name_is_not_bucket_name (r c : string) :
  r ++ "_REGION" <> c ++ "_BUCKET".
Proof.
  intros H. apply (f_equal last_char) in H.
  rewrite !last_char_app in H by discriminate. discriminate.
Qed.

(** What a returning run of [src/unnamed/part_000] had as name and storage,
    and the [env] it gave the container. *)
Lemma part000_returning_env name user o obj :
  part000_outcome name user o [] = inr obj ->
  exists so cloud region,
    obj_get "storage" (Part000.resolve_args user) = JObj so
    /\ obj_get "cloud" so = JStr cloud
    /\ obj_get "region" so = JStr region
    /\ env_of (args_of_class K8sDeployment (part000_graph name user o []))
       = [ Part000.env_value "DISABLE_API"
             (ILit (JStr (String_of_bool
                            (js_not (obj_get "api"
                                       (Part000.resolve_args user))))));
           Part000.env_value "DISABLE_METRICS"
             (ILit (JStr (String_of_bool
                            (js_not (obj_get "metrics"
                                       (Part000.resolve_args user))))));
           Part000.env_value "LOG_JSON" (ILit (JStr "true"));
           Part000.env_value "PROV_POST_FORM_FIELD_NAME" (ILit (JStr "prov"));
           Part000.env_value "STORAGE" (ILit (JStr cloud));
           Part000.env_value ("STORAGE_" ++ toUpperCase region ++ "_REGION")
                             (ILit (JStr region));
           Part000.env_value ("STORAGE_" ++ toUpperCase cloud ++ "_BUCKET")
                             (IOut (mkOut (mkRef S3Bucket (name ++ "-bucket"))
                                          ["bucket"])) ].
Proof.
  intros Hret.
  destruct (proj1 (part000_returns_iff_env name user o)
                  (ex_intro _ obj Hret))
    as (Hn & so & cloud & region & Hs & Hc & Hr).
  destruct (RunFacts.nonempty_name name Hn) as (c & n & ->).
  exists so, cloud, region. repeat (split; auto).
  pose proof (part000_run_by_env c n user o) as H.
  cbv zeta in H.
  rewrite (part000_env_shape _ _ _ _ so cloud region Hs Hc Hr) in H.
  apply H.
Qed.

(** X11: whenever the constructor of [src/unnamed/part_000] returns, the
    seven environment variables of the container have pairwise different
    names, whatever cloud and region the user gave: the variable named after
    the region never collides with the one named after the cloud nor with
    a fixed one. *)
Theorem part000_env_names_distinct :
  forall name user o (st : Engine) obj,
    part000_outcome name user o st = inr obj ->
    List.length (env_of (args_of_class K8sDeployment
                           (part000_graph name user o st))) = 7
    /\ NoDup (env_names (args_of_class K8sDeployment
                           (part000_graph name user o st))).
Proof.
  intros name user o st obj Hret.
  rewrite RunFacts.part000_outcome_frame in Hret.
  rewrite RunFacts.part000_graph_frame.
  destruct (part000_returning_env name user o obj Hret)
    as (so & cloud & region & _ & _ & _ & Henv).
  unfold env_names. rewrite Henv. split; [reflexivity|].
  simpl. unfold env_name. simpl.
  repeat constructor; simpl;
    repeat (let H := fresh in intros [H | H]; [| revert H]);
    try (intros []); try discriminate.
  injection H as H. symmetry in H.
  now apply region_name_is_not_bucket_name in H.
Qed.

Lemma part000_env_names_distinct_defaults :
  NoDup (env_names (args_of_class K8sDeployment
                      (part000_graph "cm" None None []))).
Proof.
  refine (proj2 (part000_env_names_distinct "cm" None None [] _ _)).
  vm_compute. reflexivity.
Defined.

(** *** Names of the declared resources *)

Lemma length_append (a b : string) :
  String.length (a ++ b) = String.length a + String.length b.
Proof.
  induction a as [|c a IH]; simpl; auto.
Qed.

Lemma append_cancel_r (a b s : string) : a ++ s = b ++ s -> a = b.
Proof.
  revert b. induction a as [|c a IH]; intros [|d b] H; simpl in H; auto.
  - apply (f_equal String.length) in H. simpl in H.
    rewrite length_append in H. lia.
  - apply (f_equal String.length) in H. simpl in H.
    rewrite length_append in H. lia.
  - injection H as -> H. f_equal. now apply IH.
Qed.

Lemma append_cancel_l (p a b : string) : p ++ a = p ++ b -> a = b.
Proof.
  induction p as [|c p IH]; simpl; auto.
  intros H. injection H as H. now apply IH.
Qed.

Lemma infix_cancel (p s a b : string) : p ++ a ++ s = p ++ b ++ s -> a = b.
Proof.
  intros H. apply append_cancel_l in H. now apply append_cancel_r in H.
Qed.

(** What a run declares is a prefix of the names listed for its
    component. *)
Lemma index_graph_urns provider region name user o :
  exists k,
    urns (index_graph provider region name user o [])
    = firstn k (index_urns name).
Proof.
  destruct name as [|c n]; [exists 0; reflexivity|].
  unfold index_graph, Index.ChartMuseum, Index.provision, bind,
    new_resource, ret, throw.
  destruct (String.eqb provider "aws"); [exists 9 | exists 2]; reflexivity.
Qed.

Lemma index_urns_NoDup (name : string) : NoDup (index_urns name).
Proof.
  unfold index_urns.
  repeat constructor; simpl; intuition discriminate.
Qed.

Lemma part000_urns_NoDup (name : string) : NoDup (part000_urns name).
Proof.
  unfold part000_urns.
  repeat constructor; simpl; intuition discriminate.
Qed.

Lemma index_urns_disjoint (n1 n2 : string) (x : Ref) :
  n1 <> n2 -> In x (index_urns n1) -> ~ In x (index_urns n2).
Proof.
  intros Hne H1 H2. unfold index_urns in *. simpl in H1, H2.
  repeat (destruct H1 as [H1 | H1]); try contradiction; subst x;
    repeat (destruct H2 as [H2 | H2]); try contradiction;
    try discriminate H2;
    injection H2 as H2; apply Hne; symmetry;
    first [ exact H2
          | now apply (infix_cancel "chartmuseum-") in H2
          | now apply append_cancel_r in H2 ].
Qed.

Lemma part000_urns_disjoint (n1 n2 : string) (x : Ref) :
  n1 <> n2 -> In x (part000_urns n1) -> ~ In x (part000_urns n2).
Proof.
  intros Hne H1 H2. unfold part000_urns in *. simpl in H1, H2.
  repeat (destruct H1 as [H1 | H1]); try contradiction; subst x;
    repeat (destruct H2 as [H2 | H2]); try contradiction;
    try discriminate H2;
    injection H2 as H2; apply Hne; symmetry;
    first [ exact H2 | now apply append_cancel_r in H2 ].
Qed.

Lemma part000_graph_urns name user o :
  exists k,
    urns (part000_graph name user o []) = firstn k (part000_urns name).
Proof.
  destruct name as [|c n]; [exists 0; reflexivity|].
  pose proof (part000_run_by_env c n user o) as H. cbv zeta in H.
  destruct (Part000.container_env _ _ _ _).
  - exists 3. apply H.
  - exists 5. apply H.
Qed.

Lemma In_firstn (n : nat) (l : list Ref) (x : Ref) :
  In x (firstn n l) -> In x l.
Proof.
  revert n. induction l as [|y l IH]; intros [|n]; simpl; auto.
  - tauto.
  - intros [H | H]; eauto.
Qed.

Lemma NoDup_firstn (n : nat) (l : list Ref) : NoDup l -> NoDup (firstn n l).
Proof.
  revert n. induction l as [|x l IH]; intros [|n] H; simpl;
    try constructor.
  - inversion H; subst. intros Hin. apply In_firstn in Hin. contradiction.
  - inversion H; subst. now apply IH.
Qed.

(** X12: one run never declares two resources under the same class and
    name, in either file and however the run ends. *)
Theorem declared_names_distinct :
  (forall provider region name user o (st : Engine),
      NoDup (urns (index_graph provider region name user o st)))
  /\ (forall name user o (st : Engine),
         NoDup (urns (part000_graph name user o st))).
Proof.
  split.
  - intros. rewrite RunFacts.index_graph_frame.
    destruct (index_graph_urns provider region name user o) as [k ->].
    apply NoDup_firstn, index_urns_NoDup.
  - intros. rewrite RunFacts.part000_graph_frame.
    destruct (part000_graph_urns name user o) as [k ->].
    apply NoDup_firstn, part000_urns_NoDup.
Qed.

(** X13: two components with different names declare disjoint sets of
    resources: no resource of the one has the class and name of a resource
    of the other, in either file, whatever the other inputs are. *)
Theorem different_names_never_collide :
  forall n1 n2 : string,
    n1 <> n2 ->
    (forall p1 p2 r1 r2 u1 u2 o1 o2 (st1 st2 : Engine) x,
        In x (urns (index_graph p1 r1 n1 u1 o1 st1)) ->
        ~ In x (urns (index_graph p2 r2 n2 u2 o2 st2)))
    /\ (forall u1 u2 o1 o2 (st1 st2 : Engine) x,
           In x (urns (part000_graph n1 u1 o1 st1)) ->
           ~ In x (urns (part000_graph n2 u2 o2 st2))).
Proof.
  intros n1 n2 Hne. split.
  - intros p1 p2 r1 r2 u1 u2 o1 o2 st1 st2 x.
    rewrite (RunFacts.index_graph_frame _ _ _ _ _ st1),
            (RunFacts.index_graph_frame _ _ _ _ _ st2).
    destruct (index_graph_urns p1 r1 n1 u1 o1) as [k1 ->].
    destruct (index_graph_urns p2 r2 n2 u2 o2) as [k2 ->].
    intros H1 H2. apply (index_urns_disjoint n1 n2 x Hne);
      eapply In_firstn; eauto.
  - intros u1 u2 o1 o2 st1 st2 x.
    rewrite (RunFacts.part000_graph_frame _ _ _ st1),
            (RunFacts.part000_graph_frame _ _ _ st2).
    destruct (part000_graph_urns n1 u1 o1) as [k1 ->].
    destruct (part000_graph_urns n2 u2 o2) as [k2 ->].
    intros H1 H2. apply (part000_urns_disjoint n1 n2 x Hne);
      eapply In_firstn; eauto.
Qed.

Lemma different_names_never_collide_a_b :
  ~ In (mkRef S3Bucket "chartmuseum-a-bucket")
       (urns (index_graph "aws" "us-west-2" "b" None None [])).
Proof.
  assert (Hne : "a" <> "b") by discriminate.
  apply (proj1 (different_names_never_collide "a" "b" Hne)
               "aws" "aws" "us-west-2" "us-west-2" None None None None [] []).
  vm_compute. auto.
Defined.

(** *** Placement in the namespace *)

(** X14: in a returning run of [src/index.ts] the deployment, the service
    and the secret are all placed in the namespace the same run declared:
    each takes its [metadata.namespace] from the name output of that
    namespace resource, not from the user's string. *)
Theorem index_resources_live_in_declared_namespace :
  forall provider region name user o (st : Engine) obj,
    index_outcome provider region name user o st = inr obj ->
    let g := index_graph provider region name user o st in
    exists n,
      resource_of_class K8sNamespace g = Some n
      /\ at_path ["metadata"; "namespace"] (args_of_class K8sDeployment g)
         = IOut (mkOut (urn n) ["metadata"; "name"])
      /\ at_path ["metadata"; "namespace"] (args_of_class K8sService g)
         = IOut (mkOut (urn n) ["metadata"; "name"])
      /\ at_path ["metadata"; "namespace"] (args_of_class K8sSecret g)
         = IOut (mkOut (urn n) ["metadata"; "name"]).
Proof.
  intros provider region name user o st obj Hret g. subst g.
  destruct (index_returning _ _ _ _ _ _ _ Hret) as [_ (c & n & _ & -> & _)].
  eexists. repeat split.
Qed.

Lemma index_resources_live_in_namespace_cm :
  exists n,
    resource_of_class K8sNamespace
      (index_graph "aws" "us-west-2" "cm" None None []) = Some n
    /\ at_path ["metadata"; "namespace"]
         (args_of_class K8sSecret
            (index_graph "aws" "us-west-2" "cm" None None []))
       = IOut (mkOut (urn n) ["metadata"; "name"]).
Proof.
  destruct (RunFacts.index_aws_returns "us-west-2" "c"%char "m" None None)
    as [obj Hobj].
  destruct (index_resources_live_in_declared_namespace
              "aws" "us-west-2" "cm" None None [] obj Hobj)
    as (n & Hn & _ & _ & Hs).
  exists n. auto.
Defined.

Lemma part000_returning_graph name user o obj :
  part000_outcome name user o [] = inr obj ->
  exists env,
    part000_graph name user o []
    = [ mkResource (mkRef (Component "jaxxstorm:chartmuseum") name) (IObj [])
          (match o with Some o' => o' | None => no_opts end);
        mkResource (mkRef S3Bucket (name ++ "-bucket")) (IObj [])
          (mkOpts (Some (mkRef (Component "jaxxstorm:chartmuseum") name)) []);
        mkResource (mkRef K8sNamespace (name ++ "-namespace"))
          (IObj [("metadata",
                  IObj [ ("name",
                          ILit (obj_get "namespace"
                                        (Part000.resolve_args user)));
                         ("labels", ILit (Part000.labels_of name)) ])])
          (mkOpts (Some (mkRef (Component "jaxxstorm:chartmuseum") name)) []);
        mkResource (mkRef K8sDeployment (name ++ "-deployment"))
          (Part000.deployment_args name (Part000.labels_of name)
             (Part000.resolve_args user)
             (mkRef K8sNamespace (name ++ "-namespace")) env)
          (mkOpts (Some (mkRef K8sNamespace (name ++ "-namespace")))
                  [mkRef S3Bucket (name ++ "-bucket")]);
        mkResource (mkRef K8sService (name ++ "-service"))
          (Part000.service_args name (Part000.labels_of name)
             (Part000.resolve_args user))
          (mkOpts (Some (mkRef K8sNamespace (name ++ "-namespace"))) []) ].
Proof.
  destruct name as [|c n]; [discriminate|].
  unfold part000_outcome, part000_graph, Part000.ChartMuseum, bind,
    new_resource, ret, lift. simpl.
  destruct (Part000.container_env _ _ _ _) as [e | env]; simpl.
  - discriminate.
  - intros _. exists env. reflexivity.
Qed.

(** X15: in [src/unnamed/part_000] only the deployment is placed in the
    declared namespace.  The service is declared without a
    [metadata.namespace], although it is owned by the namespace resource;
    its metadata holds only the name [name] and the labels. *)
Theorem part000_service_has_no_namespace :
  forall name user o (st : Engine) obj,
    part000_outcome name user o st = inr obj ->
    let g := part000_graph name user o st in
    at_path ["metadata"; "namespace"] (args_of_class K8sDeployment g)
    = IOut (mkOut (mkRef K8sNamespace (name ++ "-namespace"))
                  ["metadata"; "name"])
    /\ at_path ["metadata"; "namespace"] (args_of_class K8sService g)
       = ILit JUndefined
    /\ prop_keys (at_path ["metadata"] (args_of_class K8sService g))
       = ["name"; "labels"]
    /\ at_path ["metadata"; "name"] (args_of_class K8sService g)
       = ILit (JStr name)
    /\ parent_of_class K8sService g
       = Some (mkRef K8sNamespace (name ++ "-namespace")).
Proof.
  intros name user o st obj Hret g. subst g.
  rewrite RunFacts.part000_outcome_frame in Hret.
  rewrite RunFacts.part000_graph_frame.
  destruct (part000_returning_graph name user o obj Hret) as [env ->].
  repeat split.
Qed.

Lemma part000_service_has_no_namespace_defaults :
  at_path ["metadata"; "namespace"]
    (args_of_class K8sService (part000_graph "cm" None None []))
  = ILit JUndefined.
Proof.
  refine (proj1 (proj2
            (part000_service_has_no_namespace "cm" None None [] _ _))).
  vm_compute. reflexivity.
Defined.

(** *** The values stored in the secret *)

Lemma base64_table :
  forallb (fun n =>
             andb (match base64_value (base64_digit n) with
                   | Some m => Nat.eqb m n
                   | None => false
                   end)
                  (negb (is_pad (base64_digit n))))
          (seq 0 64) = true.
Proof. vm_compute. reflexivity. Qed.

(** The encoder's alphabet and the decoder's table agree. *)
Lemma base64_digit_value (n : nat) :
  n < 64 ->
  base64_value (base64_digit n) = Some n /\ is_pad (base64_digit n) = false.
Proof.
  intros Hn. pose proof base64_table as H.
  rewrite forallb_forall in H. specialize (H n).
  rewrite in_seq in H. specialize (H ltac:(lia)).
  apply andb_true_iff in H. destruct H as [H1 H2].
  destruct (base64_value (base64_digit n)) as [m|]; [|discriminate].
  apply Nat.eqb_eq in H1. subst m.
  now apply negb_true_iff in H2.
Qed.

Lemma decode_one (c1 c2 : ascii) (v1 v2 : nat) :
  base64_value c1 = Some v1 -> base64_value c2 = Some v2 ->
  base64_decode [c1; c2; "="%char; "="%char] = Some [v1 * 4 + v2 / 16].
Proof.
  intros H1 H2. cbn -[base64_value Nat.div Nat.modulo Nat.mul Nat.add].
  now rewrite H1, H2.
Qed.

Lemma decode_two (c1 c2 c3 : ascii) (v1 v2 v3 : nat) :
  base64_value c1 = Some v1 -> base64_value c2 = Some v2 ->
  base64_value c3 = Some v3 -> is_pad c3 = false ->
  base64_decode [c1; c2; c3; "="%char]
  = Some [v1 * 4 + v2 / 16; (v2 mod 16) * 16 + v3 / 4].
Proof.
  intros H1 H2 H3 Hp.
  cbn -[base64_value is_pad Nat.div Nat.modulo Nat.mul Nat.add].
  rewrite H1, H2, H3, Hp. reflexivity.
Qed.

Lemma decode_three (c1 c2 c3 c4 : ascii) (rest : list ascii)
      (v1 v2 v3 v4 : nat) :
  base64_value c1 = Some v1 -> base64_value c2 = Some v2 ->
  base64_value c3 = Some v3 -> base64_value c4 = Some v4 ->
  is_pad c3 = false -> is_pad c4 = false ->
  base64_decode (c1 :: c2 :: c3 :: c4 :: rest)
  = match base64_decode rest with
    | Some tl => Some (v1 * 4 + v2 / 16 :: (v2 mod 16) * 16 + v3 / 4
                       :: (v3 mod 4) * 64 + v4 :: tl)
    | None => None
    end.
Proof.
  intros H1 H2 H3 H4 Hp3 Hp4.
  cbn -[base64_value is_pad Nat.div Nat.modulo Nat.mul Nat.add].
  rewrite H1, H2, H3, H4, Hp3, Hp4. reflexivity.
Qed.

Lemma div_mul_add (r x m : nat) : x < m -> (r * m + x) / m = r.
Proof.
  intros H. rewrite Nat.div_add_l by lia. rewrite Nat.div_small by lia. lia.
Qed.

Lemma mod_mul_add (r x m : nat) : x < m -> (r * m + x) mod m = x.
Proof.
  intros H. replace (r * m + x) with (x + r * m) by lia.
  rewrite Nat.Div0.mod_add. now apply Nat.mod_small.
Qed.

Lemma sextets_byte1 (a b : nat) :
  b < 256 -> a / 4 * 4 + (a mod 4 * 16 + b / 16) / 16 = a.
Proof.
  intros Hb.
  assert (b / 16 < 16) by (apply Nat.Div0.div_lt_upper_bound; lia).
  rewrite div_mul_add by assumption.
  pose proof (Nat.div_mod_eq a 4). lia.
Qed.

Lemma sextets_byte2 (a b c : nat) :
  b < 256 -> c < 256 ->
  (a mod 4 * 16 + b / 16) mod 16 * 16 + (b mod 16 * 4 + c / 64) / 4 = b.
Proof.
  intros Hb Hc.
  assert (b / 16 < 16) by (apply Nat.Div0.div_lt_upper_bound; lia).
  assert (c / 64 < 4) by (apply Nat.Div0.div_lt_upper_bound; lia).
  rewrite mod_mul_add, div_mul_add by assumption.
  pose proof (Nat.div_mod_eq b 16). lia.
Qed.

Lemma sextets_byte3 (b c : nat) :
  c < 256 -> (b mod 16 * 4 + c / 64) mod 4 * 64 + c mod 64 = c.
Proof.
  intros Hc.
  assert (c / 64 < 4) by (apply Nat.Div0.div_lt_upper_bound; lia).
  rewrite mod_mul_add by assumption.
  pose proof (Nat.div_mod_eq c 64). lia.
Qed.

Lemma sextet_bounds (a b : nat) :
  a < 256 -> b < 256 ->
  a / 4 < 64 /\ a mod 4 * 16 + b / 16 < 64 /\ a mod 4 * 16 < 64
  /\ a mod 16 * 4 + b / 64 < 64 /\ a mod 16 * 4 < 64 /\ a mod 64 < 64.
Proof.
  intros Ha Hb.
  assert (a / 4 < 64) by (apply Nat.Div0.div_lt_upper_bound; lia).
  assert (b / 16 < 16) by (apply Nat.Div0.div_lt_upper_bound; lia).
  assert (b / 64 < 4) by (apply Nat.Div0.div_lt_upper_bound; lia).
  pose proof (Nat.mod_upper_bound a 4). pose proof (Nat.mod_upper_bound a 16).
  pose proof (Nat.mod_upper_bound a 64). lia.
Qed.

(** Decoding what the encoder wrote gives the bytes back. *)
Lemma base64_decode_encode (fuel : nat) :
  forall bs : list nat,
    Forall (fun n => n < 256) bs ->
    List.length bs < fuel ->
    base64_decode (list_ascii_of_string (base64_bytes fuel bs)) = Some bs.
Proof.
  induction fuel as [|fuel IH]; intros bs Hb Hlt; [lia|].
  destruct bs as [|a [|b [|c rest]]];
    cbn [base64_bytes list_ascii_of_string].
  - reflexivity.
  - inversion Hb as [|? ? Ha _]; subst.
    destruct (sextet_bounds a a Ha Ha) as (H1 & _ & H2 & _).
    destruct (base64_digit_value _ H1) as [V1 _].
    destruct (base64_digit_value _ H2) as [V2 _].
    change (list_ascii_of_string "==") with ["="%char; "="%char].
    rewrite (decode_one _ _ _ _ V1 V2). do 2 f_equal.
    replace (a mod 4 * 16) with (a mod 4 * 16 + 0 / 16) by (simpl; lia).
    apply sextets_byte1. lia.
  - inversion Hb as [|? ? Ha Hb']; subst.
    inversion Hb' as [|? ? Hb1 _]; subst.
    destruct (sextet_bounds a b Ha Hb1) as (H1 & H2 & _).
    destruct (sextet_bounds b b Hb1 Hb1) as (_ & _ & _ & _ & H3 & _).
    destruct (base64_digit_value _ H1) as [V1 _].
    destruct (base64_digit_value _ H2) as [V2 _].
    destruct (base64_digit_value _ H3) as [V3 P3].
    change (list_ascii_of_string "=") with ["="%char].
    rewrite (decode_two _ _ _ _ _ _ V1 V2 V3 P3). do 2 f_equal.
    + now apply sextets_byte1.
    + f_equal.
      replace (b mod 16 * 4) with (b mod 16 * 4 + 0 / 64) by (simpl; lia).
      apply sextets_byte2; lia.
  - inversion Hb as [|? ? Ha Hb']; subst.
    inversion Hb' as [|? ? Hb1 Hb'']; subst.
    inversion Hb'' as [|? ? Hc Hrest]; subst.
    destruct (sextet_bounds a b Ha Hb1) as (H1 & H2 & _).
    destruct (sextet_bounds b c Hb1 Hc) as (_ & _ & _ & H3 & _).
    destruct (sextet_bounds c c Hc Hc) as (_ & _ & _ & _ & _ & H4).
    destruct (base64_digit_value _ H1) as [V1 _].
    destruct (base64_digit_value _ H2) as [V2 _].
    destruct (base64_digit_value _ H3) as [V3 P3].
    destruct (base64_digit_value _ H4) as [V4 P4].
    rewrite (decode_three _ _ _ _ _ _ _ _ _ V1 V2 V3 V4 P3 P4).
    rewrite IH by (auto; cbn [List.length] in Hlt; lia).
    rewrite sextets_byte1, sextets_byte2, sextets_byte3 by assumption.
    reflexivity.
Qed.

Lemma from_base64_to_base64 (s : string) : from_base64 (to_base64 s) = Some s.
Proof.
  unfold from_base64, to_base64.
  rewrite base64_decode_encode.
  - f_equal. rewrite map_map.
    rewrite (map_ext _ (fun c => c)) by (intros c; apply ascii_nat_embedding).
    rewrite map_id. apply string_of_list_ascii_of_string.
  - apply Forall_forall. intros n Hn.
    apply in_map_iff in Hn. destruct Hn as [c [<- _]].
    apply nat_ascii_bounded.
  - lia.
Qed.

(** X16: in a returning run of [src/index.ts] the two values of the
    secret's [data] are computed from the [id] and the [secret] of the access
    key declared by the same run, and each is base64 text of the credential:
    decoding it after RFC 4648 gives the credential back, byte for byte. *)
Theorem secret_values_are_base64 :
  forall provider region name user o (st : Engine) obj,
    index_outcome provider region name user o st = inr obj ->
    let g := index_graph provider region name user o st in
    exists s k f_id f_secret,
      resource_of_class K8sSecret g = Some s
      /\ resource_of_class IamAccessKey g = Some k
      /\ at_path ["data"; "AWS_ACCESS_KEY_ID"] (args s)
         = IApply (mkOut (urn k) ["id"]) f_id
      /\ at_path ["data"; "AWS_SECRET_ACCESS_KEY"] (args s)
         = IApply (mkOut (urn k) ["secret"]) f_secret
      /\ (forall v, exists t, f_id v = JStr t /\ from_base64 t = Some v)
      /\ (forall v, exists t, f_secret v = JStr t /\ from_base64 t = Some v).
Proof.
  intros provider region name user o st obj Hret g. subst g.
  destruct (index_returning _ _ _ _ _ _ _ Hret) as [_ (c & n & _ & -> & _)].
  do 4 eexists.
  split; [reflexivity|]. split; [reflexivity|].
  split; [reflexivity|]. split; [reflexivity|].
  split; intros v; exists (to_base64 v);
    (split; [reflexivity | apply from_base64_to_base64]).
Qed.

Lemma secret_values_are_base64_cm :
  exists s k f_id,
    resource_of_class K8sSecret
      (index_graph "aws" "us-west-2" "cm" None None []) = Some s
    /\ resource_of_class IamAccessKey
         (index_graph "aws" "us-west-2" "cm" None None []) = Some k
    /\ at_path ["data"; "AWS_ACCESS_KEY_ID"] (args s)
       = IApply (mkOut (urn k) ["id"]) f_id
    /\ exists t, f_id "AKIA" = JStr t /\ from_base64 t = Some "AKIA".
Proof.
  destruct (RunFacts.index_aws_returns "us-west-2" "c"%char "m" None None)
    as [obj Hobj].
  destruct (secret_values_are_base64
              "aws" "us-west-2" "cm" None None [] obj Hobj)
    as (s & k & f_id & f_secret & Hs & Hk & Hid & _ & Hdec & _).
  exists s, k, f_id. repeat (split; auto).
Defined.

(** The encoder on the test vectors of RFC 4648. *)
Lemma to_base64_vectors :
  map to_base64 ["f"; "fo"; "foo"; "foob"; "fooba"; "foobar"]
  = ["Zg=="; "Zm8="; "Zm9v"; "Zm9vYg=="; "Zm9vYmE="; "Zm9vYmFy"].
Proof. reflexivity. Qed.

(** *** Ownership in src/unnamed/part_000 *)

Section Part000Ownership.

Variables (name : string) (user : option JsObject)
          (o : option ResourceOptions) (obj : Part000.ChartMuseumObj).
Hypothesis Hret : part000_outcome name user o [] = inr obj.

Let root : Ref := mkRef (Component "jaxxstorm:chartmuseum") name.
Let ns : Ref := mkRef K8sNamespace (name ++ "-namespace").
Let g : list Resource := part000_graph name user o [].

Lemma part000_edges :
  edges g
  = [ (root, parent (match o with Some o' => o' | None => no_opts end));
      (mkRef S3Bucket (name ++ "-bucket"), Some root);
      (ns, Some root);
      (mkRef K8sDeployment (name ++ "-deployment"), Some ns);
      (mkRef K8sService (name ++ "-service"), Some ns) ].
Proof.
  unfold g. destruct (part000_returning_graph name user o obj Hret) as [env ->].
  reflexivity.
Qed.

Lemma part000_owned_by_edge (c p : Ref) :
  owned_by root g c p <-> In (c, Some p) (edges g) /\ c <> root.
Proof.
  unfold owned_by, edges. rewrite in_map_iff. split.
  - intros [r [Hin [Hu [Hne Hp]]]]. split; auto.
    exists r. now rewrite Hu, Hp.
  - intros [[r [Heq Hin]] Hne]. exists r.
    injection Heq as Hu Hp. auto.
Qed.

Ltac part_cases H :=
  rewrite part000_edges in H; simpl in H;
  repeat (destruct H as [H | H]); try contradiction.

Lemma part000_owned_by_depth (c p : Ref) :
  owned_by root g c p -> depth p < depth c.
Proof.
  rewrite part000_owned_by_edge. intros [Hin Hne].
  part_cases Hin; injection Hin as Hc Hp; subst c; try subst p;
    try (exfalso; apply Hne; reflexivity); unfold depth; simpl; lia.
Qed.

Lemma part000_acyclic (x : Ref) : ~ clos_trans Ref (owned_by root g) x x.
Proof.
  assert (H : forall a b, clos_trans Ref (owned_by root g) a b ->
                          depth b < depth a).
  { induction 1 as [a b H | a b c _ IH1 _ IH2].
    - now apply part000_owned_by_depth.
    - lia. }
  intros Hx. apply H in Hx. lia.
Qed.

Lemma part000_one_owner (c p1 p2 : Ref) :
  owned_by root g c p1 -> owned_by root g c p2 -> p1 = p2.
Proof.
  rewrite !part000_owned_by_edge. intros [H1 Hne] [H2 _].
  part_cases H1; part_cases H2; unfold root, ns in *; congruence.
Qed.

Lemma part000_rooted (r : Resource) :
  In r g -> urn r <> root -> clos_trans Ref (owned_by root g) (urn r) root.
Proof.
  intros Hin Hne.
  assert (Hns : owned_by root g ns root).
  { apply part000_owned_by_edge. rewrite part000_edges.
    split; [simpl; auto | discriminate]. }
  assert (He : In (urn r, parent (opts r)) (edges g)).
  { unfold edges. now apply (in_map (fun x => (urn x, parent (opts x)))). }
  assert (Hown : forall p, parent (opts r) = Some p ->
                           owned_by root g (urn r) p).
  { intros p Hp. exists r. auto. }
  part_cases He; injection He as Hu Hp; symmetry in Hp.
  - exfalso. apply Hne. now rewrite <- Hu.
  - apply t_step. auto.
  - apply t_step. auto.
  - eapply t_trans; [apply t_step; apply (Hown _ Hp) | now apply t_step].
  - eapply t_trans; [apply t_step; apply (Hown _ Hp) | now apply t_step].
Qed.

Lemma part000_tree : ownership_tree root g.
Proof.
  constructor.
  - exact part000_rooted.
  - exact part000_acyclic.
  - exact part000_one_owner.
Qed.

End Part000Ownership.

(** X17: when the constructor of [src/unnamed/part_000] returns, the
    ownership of what it declared is a tree rooted at the component, without
    a cycle: the bucket and the namespace are owned by the component, the
    deployment and the service by the namespace. *)
Theorem part000_ownership_is_a_tree :
  forall name user o (st : Engine) obj,
    part000_outcome name user o st = inr obj ->
    let g := part000_graph name user o st in
    let root := mkRef (Component "jaxxstorm:chartmuseum") name in
    let ns := mkRef K8sNamespace (name ++ "-namespace") in
    ownership_tree root g
    /\ parent_of_class S3Bucket g = Some root
    /\ parent_of_class K8sNamespace g = Some root
    /\ parent_of_class K8sDeployment g = Some ns
    /\ parent_of_class K8sService g = Some ns.
Proof.
  intros name user o st obj Hret g root ns. subst g root ns.
  rewrite RunFacts.part000_outcome_frame in Hret.
  rewrite RunFacts.part000_graph_frame.
  split; [eapply part000_tree; eauto|].
  destruct (part000_returning_graph name user o obj Hret) as [env ->].
  repeat split.
Qed.

Lemma part000_ownership_defaults :
  ownership_tree (mkRef (Component "jaxxstorm:chartmuseum") "cm")
                 (part000_graph "cm" None None []).
Proof.
  refine (proj1 (part000_ownership_is_a_tree "cm" None None [] _ _)).
  vm_compute. reflexivity.
Defined.

(** *** What src/unnamed/part_000 puts in the deployment and the service *)

(** X18: whenever the constructor of [src/unnamed/part_000] returns, with
    resolved storage [{cloud, region}] whose two strings are ASCII, the
    container gets [STORAGE] = cloud, a variable named
    [STORAGE_<REGION in upper case>_REGION] holding the region, and a
    variable named [STORAGE_<CLOUD in upper case>_BUCKET] holding the
    bucket-name output of the bucket declared by the run. *)
Theorem part000_storage_variables :
  forall name user o (st : Engine) obj so cloud region,
    part000_outcome name user o st = inr obj ->
    obj_get "storage" (Part000.resolve_args user) = JObj so ->
    obj_get "cloud" so = JStr cloud ->
    obj_get "region" so = JStr region ->
    ascii_only cloud = true ->
    ascii_only region = true ->
    skipn 4 (map (fun e => (env_name e, at_path ["value"] e))
                 (env_of (args_of_class K8sDeployment
                            (part000_graph name user o st))))
    = [ (ILit (JStr "STORAGE"), ILit (JStr cloud));
        (ILit (JStr ("STORAGE_" ++ toUpperCase region ++ "_REGION")),
         ILit (JStr region));
        (ILit (JStr ("STORAGE_" ++ toUpperCase cloud ++ "_BUCKET")),
         IOut (mkOut (mkRef S3Bucket (name ++ "-bucket")) ["bucket"])) ]
    /\ In (mkRef S3Bucket (name ++ "-bucket"))
          (urns (part000_graph name user o st)).
Proof.
  intros name user o st obj so cloud region Hret Hs Hc Hr _ _.
  rewrite RunFacts.part000_outcome_frame in Hret.
  rewrite RunFacts.part000_graph_frame.
  destruct (part000_returning_env name user o obj Hret)
    as (so' & cloud' & region' & Hs' & Hc' & Hr' & Henv).
  rewrite Hs in Hs'. injection Hs' as <-.
  rewrite Hc in Hc'. injection Hc' as <-.
  rewrite Hr in Hr'. injection Hr' as <-.
  split.
  - rewrite Henv. reflexivity.
  - destruct (part000_returning_graph name user o obj Hret) as [env ->].
    simpl. auto.
Qed.

Lemma part000_storage_variables_google :
  skipn 4 (map (fun e => (env_name e, at_path ["value"] e))
               (env_of (args_of_class K8sDeployment
                          (part000_graph "cm"
                             (Some [("storage",
                                     JObj [ ("cloud", JStr "google");
                                            ("region", JStr "eu-west1") ])])
                             None []))))
  = [ (ILit (JStr "STORAGE"), ILit (JStr "google"));
      (ILit (JStr "STORAGE_EU-WEST1_REGION"), ILit (JStr "eu-west1"));
      (ILit (JStr "STORAGE_GOOGLE_BUCKET"),
       IOut (mkOut (mkRef S3Bucket "cm-bucket") ["bucket"])) ].
Proof.
  refine (proj1 (part000_storage_variables
                   "cm"
                   (Some [("storage",
                           JObj [ ("cloud", JStr "google");
                                  ("region", JStr "eu-west1") ])])
                   None [] _
                   [("cloud", JStr "google"); ("region", JStr "eu-west1")]
                   "google" "eu-west1" _ _ _ _ _ _));
    vm_compute; reflexivity.
Defined.

(** X19: in [src/unnamed/part_000] too the two DISABLE variables follow
    the truthiness of the resolved flags: for every returning run
    [DISABLE_API] is ["false"] exactly when the resolved [api] is truthy and
    ["true"] exactly when it is falsy, and likewise [DISABLE_METRICS]. *)
Theorem part000_disable_flags_follow_truthiness :
  forall name user o (st : Engine) obj,
    part000_outcome name user o st = inr obj ->
    let env := env_of (args_of_class K8sDeployment
                         (part000_graph name user o st)) in
    (env_lookup "DISABLE_API" env = Some (ILit (JStr "false"))
     <-> to_boolean (obj_get "api" (Part000.resolve_args user)) = true)
    /\ (env_lookup "DISABLE_API" env = Some (ILit (JStr "true"))
        <-> to_boolean (obj_get "api" (Part000.resolve_args user)) = false)
    /\ (env_lookup "DISABLE_METRICS" env = Some (ILit (JStr "false"))
        <-> to_boolean (obj_get "metrics" (Part000.resolve_args user)) = true)
    /\ (env_lookup "DISABLE_METRICS" env = Some (ILit (JStr "true"))
        <-> to_boolean (obj_get "metrics" (Part000.resolve_args user)) = false).
Proof.
  intros name user o st obj Hret env. subst env.
  rewrite RunFacts.part000_outcome_frame in Hret.
  rewrite RunFacts.part000_graph_frame.
  destruct (part000_returning_env name user o obj Hret)
    as (so & cloud & region & _ & _ & _ & ->).
  unfold env_lookup, js_not. simpl.
  destruct (to_boolean (obj_get "api" (Part000.resolve_args user)));
    destruct (to_boolean (obj_get "metrics" (Part000.resolve_args user)));
    simpl; repeat split; intros H; try reflexivity; discriminate H.
Qed.

Lemma part000_disable_flags_api_on :
  env_lookup "DISABLE_API"
    (env_of (args_of_class K8sDeployment
               (part000_graph "cm" (Some [("api", JBool true)]) None [])))
  = Some (ILit (JStr "false")).
Proof.
  refine (proj2 (proj1 (part000_disable_flags_follow_truthiness
                          "cm" (Some [("api", JBool true)]) None [] _ _)) _).
  - vm_compute. reflexivity.
  - reflexivity.
Defined.

(** X20: in [src/unnamed/part_000] the service selects pods by
    [{app: "chartmuseum", release: name}], the object the deployment carries
    as its labels, its selector's [matchLabels] and its pod template's
    labels; the namespace carries the same labels. *)
Theorem part000_selector_is_deployment_labels :
  forall name user o (st : Engine) obj,
    part000_outcome name user o st = inr obj ->
    let g := part000_graph name user o st in
    let labels :=
      ILit (JObj [("app", JStr "chartmuseum"); ("release", JStr name)]) in
    at_path ["spec"; "selector"] (args_of_class K8sService g) = labels
    /\ at_path ["metadata"; "labels"] (args_of_class K8sDeployment g) = labels
    /\ at_path ["spec"; "selector"; "matchLabels"]
               (args_of_class K8sDeployment g) = labels
    /\ at_path ["spec"; "template"; "metadata"; "labels"]
               (args_of_class K8sDeployment g) = labels
    /\ at_path ["metadata"; "labels"] (args_of_class K8sNamespace g) = labels.
Proof.
  intros name user o st obj Hret g labels. subst g labels.
  rewrite RunFacts.part000_outcome_frame in Hret.
  rewrite RunFacts.part000_graph_frame.
  destruct (part000_returning_graph name user o obj Hret) as [env ->].
  repeat split.
Qed.

Lemma part000_labels_defaults :
  at_path ["spec"; "selector"]
    (args_of_class K8sService (part000_graph "cm" None None []))
  = ILit (JObj [("app", JStr "chartmuseum"); ("release", JStr "cm")]).
Proof.
  refine (proj1 (part000_selector_is_deployment_labels "cm" None None [] _ _)).
  vm_compute. reflexivity.
Defined.

(** X21: in [src/unnamed/part_000] the user's [namespace], [replicas] and
    service type reach the declared resources as given, without any check;
    a key the user did not give takes its default. *)
Theorem part000_user_values_pass_unchecked :
  forall name (u : JsObject) o (st : Engine) obj,
    part000_outcome name (Some u) o st = inr obj ->
    let g := part000_graph name (Some u) o st in
    at_path ["metadata"; "name"] (args_of_class K8sNamespace g)
    = ILit (if obj_has "namespace" u then obj_get "namespace" u
            else JStr "chartmuseum")
    /\ at_path ["spec"; "replicas"] (args_of_class K8sDeployment g)
       = ILit (if obj_has "replicas" u then obj_get "replicas" u else JNum 1)
    /\ at_path ["spec"; "type"] (args_of_class K8sService g)
       = ILit (if obj_has "service" u
               then opt_member (obj_get "service" u) "type"
               else JStr "ClusterIP").
Proof.
  intros name u o st obj Hret g. subst g.
  rewrite RunFacts.part000_outcome_frame in Hret.
  rewrite RunFacts.part000_graph_frame.
  destruct (part000_returning_graph name (Some u) o obj Hret) as [env ->].
  with_strategy opaque [Part000.resolve_args]
    (unfold args_of_class, resource_of_class; simpl).
  rewrite !part000_resolve_get.
  repeat split.
  now destruct (obj_has "service" u).
Qed.

Lemma part000_user_values_example :
  at_path ["spec"; "replicas"]
    (args_of_class K8sDeployment
       (part000_graph "cm" (Some [("replicas", JNum (-1))]) None []))
  = ILit (JNum (-1)).
Proof.
  refine (proj1 (proj2 (part000_user_values_pass_unchecked
                          "cm" [("replicas", JNum (-1))] None [] _ _))).
  vm_compute. reflexivity.
Defined.

(** *** The component object *)

(** X22: when the constructor of [src/index.ts] returns, the public fields
    of the component name resources this very run declared: [deployment],
    [namespace], [service], [secret] and [bucket] are the declared resource
    of the matching class.  [cloudProvider] is ["amazon"] and is what the
    container gets as [STORAGE]; [cloudProviderRegion] is the configured
    region, passed unchanged as [STORAGE_AMAZON_REGION]. *)
Theorem index_fields_name_declared_resources :
  forall provider region name user o (st : Engine) obj,
    index_outcome provider region name user o st = inr obj ->
    let g := index_graph provider region name user o st in
    let env := env_of (args_of_class K8sDeployment g) in
    urn_of_class K8sDeployment g = Some (Index.deployment obj)
    /\ urn_of_class K8sNamespace g = Some (Index.namespace obj)
    /\ urn_of_class K8sService g = Some (Index.service obj)
    /\ urn_of_class K8sSecret g = Some (Index.secret obj)
    /\ urn_of_class S3Bucket g = Some (Index.bucket obj)
    /\ Index.cloudProvider obj = "amazon"
    /\ Index.cloudProviderRegion obj = region
    /\ env_lookup "STORAGE" env = Some (ILit (JStr "amazon"))
    /\ env_lookup "STORAGE_AMAZON_REGION" env = Some (ILit (JStr region))
    /\ env_lookup "STORAGE_AMAZON_BUCKET" env
       = Some (IOut (mkOut (Index.bucket obj) ["bucket"])).
Proof.
  intros provider region name user o st obj Hret g env. subst g env.
  destruct (index_returning _ _ _ _ _ _ _ Hret)
    as [_ (c & n & _ & -> & Hobj)].
  unfold index_outcome in Hobj. simpl in Hobj. injection Hobj as <-.
  repeat split.
Qed.

Lemma index_fields_cm :
  urn_of_class S3Bucket (index_graph "aws" "eu-central-1" "cm" None None [])
  = Some (mkRef S3Bucket "chartmuseum-cm-bucket")
  /\ env_lookup "STORAGE_AMAZON_REGION"
       (env_of (args_of_class K8sDeployment
                  (index_graph "aws" "eu-central-1" "cm" None None [])))
     = Some (ILit (JStr "eu-central-1")).
Proof.
  destruct (RunFacts.index_aws_returns "eu-central-1" "c"%char "m" None None)
    as [obj Hobj].
  pose proof (index_fields_name_declared_resources
                "aws" "eu-central-1" "cm" None None [] obj Hobj) as H.
  simpl in H. split; [|apply H].
  destruct H as (_ & _ & _ & _ & Hb & _). rewrite Hb.
  unfold index_outcome in Hobj. simpl in Hobj. injection Hobj as <-.
  reflexivity.
Defined.

(** X23: when the constructor of [src/unnamed/part_000] returns, its
    fields [deployment], [namespace], [service] and [bucket] are the declared
    resource of the matching class, and its private arguments are the
    resolved ones. *)
Theorem part000_fields_name_declared_resources :
  forall name user o (st : Engine) obj,
    part000_outcome name user o st = inr obj ->
    let g := part000_graph name user o st in
    urn_of_class K8sDeployment g = Some (Part000.deployment obj)
    /\ urn_of_class K8sNamespace g = Some (Part000.namespace obj)
    /\ urn_of_class K8sService g = Some (Part000.service obj)
    /\ urn_of_class S3Bucket g = Some (Part000.bucket obj)
    /\ Part000.args_ obj = Part000.resolve_args user.
Proof.
  intros name user o st obj Hret g. subst g.
  rewrite RunFacts.part000_outcome_frame in Hret.
  rewrite RunFacts.part000_graph_frame.
  revert Hret. destruct name as [|c n]; [discriminate|].
  unfold part000_outcome, part000_graph, Part000.ChartMuseum, bind,
    new_resource, ret, lift. simpl.
  destruct (Part000.container_env _ _ _ _) as [e | env]; simpl.
  - discriminate.
  - intros H. injection H as <-. repeat split.
Qed.

Lemma part000_fields_cm :
  urn_of_class S3Bucket (part000_graph "cm" None None [])
  = Some (mkRef S3Bucket "cm-bucket").
Proof.
  assert (H : exists obj, part000_outcome "cm" None None [] = inr obj)
    by (eexists; vm_compute; reflexivity).
  destruct H as [obj Hobj].
  destruct (part000_fields_name_declared_resources "cm" None None [] obj Hobj)
    as (_ & _ & _ & Hb & _).
  rewrite Hb. revert Hobj. vm_compute. intros H. injection H as <-.
  reflexivity.
Defined.

(** *** Two components in one program *)

(** X24: when a program builds one component after another with
    [src/index.ts], under different names, the second run leaves what the
    first declared in place, adds its own resources after it, and the whole
    log holds no class and name twice. *)
Theorem two_components_share_no_name :
  forall p r n1 n2 u1 u2 o1 o2 obj1,
    n1 <> n2 ->
    index_outcome p r n1 u1 o1 [] = inr obj1 ->
    fst (Index.ChartMuseum p r n2 u2 o2
           (fst (Index.ChartMuseum p r n1 u1 o1 [])))
    = (index_graph p r n1 u1 o1 [] ++ index_graph p r n2 u2 o2 [])%list
    /\ NoDup (urns (index_graph p r n1 u1 o1 []
                    ++ index_graph p r n2 u2 o2 [])%list).
Proof.
  intros p r n1 n2 u1 u2 o1 o2 obj1 Hne _. split.
  - rewrite (RunFacts.index_frame p r n2). reflexivity.
  - unfold urns. rewrite map_app.
    fold (urns (index_graph p r n1 u1 o1 [])).
    fold (urns (index_graph p r n2 u2 o2 [])).
    destruct (index_graph_urns p r n1 u1 o1) as [k1 ->].
    destruct (index_graph_urns p r n2 u2 o2) as [k2 ->].
    apply NoDup_app.
    + apply NoDup_firstn, index_urns_NoDup.
    + apply NoDup_firstn, index_urns_NoDup.
    + intros x H1 H2.
      apply (index_urns_disjoint n1 n2 x Hne); eapply In_firstn; eauto.
Qed.

Lemma two_components_a_b :
  NoDup (urns (index_graph "aws" "us-west-2" "a" None None []
               ++ index_graph "aws" "us-west-2" "b" None None [])%list).
Proof.
  assert (Hne : "a" <> "b") by discriminate.
  refine (proj2 (two_components_share_no_name
                   "aws" "us-west-2" "a" "b" None None None None _ Hne _)).
  reflexivity.
Defined.
